(** * boto.ec2.cloudwatch.alarm

    A shallow embedding of [boto/ec2/cloudwatch/alarm.py]: the two record
    classes [MetricAlarm] and [AlarmHistoryItem], their constructors, the
    SAX-style parse callbacks [startElement] / [endElement], the action
    helpers and the operations delegated to the connection.

    Python objects are mutable and shared, so the embedding keeps an object
    store: every instance and every list lives at a location, attributes
    are a finite map from names to values, and each method is a state
    transformer that either returns a value or raises. *)

From Stdlib Require Import ZArith Ascii String Floats.SpecFloat.
From stdpp Require Import base option gmap strings list.

Local Open Scope string_scope.

(** ** Values, objects and the store *)

Definition loc := positive.

(** A naive [datetime.datetime] (no tzinfo). *)
Record datetime := mk_datetime {
  dt_year : Z; dt_month : Z; dt_day : Z;
  dt_hour : Z; dt_minute : Z; dt_second : Z; dt_microsecond : Z }.

Inductive val :=
| VNone
| VBool (b : bool)
| VInt (n : Z)
| VFloat (x : spec_float)
| VStr (s : string)
| VDateTime (d : datetime)
| VConn (c : nat)        (* a connection object, known by its identity *)
| VRef (l : loc).        (* a reference to an object of the store *)

Inductive inst_class := MetricAlarmCls | AlarmHistoryItemCls.
Inductive list_class := ListCls | ListElementCls.

Inductive obj :=
| OInst (cls : inst_class) (attrs : gmap string val)
| OList (cls : list_class) (items : list val)
| ODict (items : list (val * val)).

Abbreviation heap := (gmap loc obj).

Inductive exn :=
| AttributeError | KeyError | TypeError | ValueError
| OtherError (name : string).

Inductive result (A : Type) :=
| Ok (a : A)
| Raise (e : exn).
Arguments Ok {A} a.
Arguments Raise {A} e.

(** ** Computations: state passing with exceptions.  The store survives a
    raise, as it does in Python. *)

Definition M (A : Type) : Type := heap -> result A * heap.

Definition ret {A} (a : A) : M A := fun h => (Ok a, h).
Definition raise {A} (e : exn) : M A := fun h => (Raise e, h).
Definition bind {A B} (m : M A) (k : A -> M B) : M B :=
  fun h => match m h with
           | (Ok a, h') => k a h'
           | (Raise e, h') => (Raise e, h')
           end.
Definition lift {A} (r : result A) : M A := fun h => (r, h).
Definition reads {A} (f : heap -> result A) : M A := fun h => (f h, h).

#[global] Instance M_ret : MRet M := @ret.
#[global] Instance M_bind : MBind M := fun A B k m => bind m k.

(** [x = <new object>] *)
Definition alloc (o : obj) : M val :=
  fun h => let l := fresh (dom h) in (Ok (VRef l), <[l := o]> h).

(** [o.name] *)
Definition getattr (o : val) (name : string) : M val :=
  fun h => match o with
           | VRef l =>
               match h !! l with
               | Some (OInst _ attrs) =>
                   match attrs !! name with
                   | Some v => (Ok v, h)
                   | None => (Raise AttributeError, h)
                   end
               | _ => (Raise AttributeError, h)
               end
           | _ => (Raise AttributeError, h)
           end.

(** [o.name = v], also [setattr(o, name, v)] *)
Definition setattr (o : val) (name : string) (v : val) : M unit :=
  fun h => match o with
           | VRef l =>
               match h !! l with
               | Some (OInst c attrs) =>
                   (Ok tt, <[l := OInst c (<[name := v]> attrs)]> h)
               | _ => (Raise AttributeError, h)
               end
           | _ => (Raise AttributeError, h)
           end.

(** [o.append(x)]: list objects have the method; an instance may carry an
    attribute of that name, which is no function. *)
Definition append (o : val) (x : val) : M val :=
  fun h => match o with
           | VRef l =>
               match h !! l with
               | Some (OList c items) =>
                   (Ok VNone, <[l := OList c (items ++ [x])]> h)
               | Some (OInst _ attrs) =>
                   match attrs !! "append" with
                   | Some _ => (Raise TypeError, h)
                   | None => (Raise AttributeError, h)
                   end
               | _ => (Raise AttributeError, h)
               end
           | _ => (Raise AttributeError, h)
           end.

(** [x is not None] and [x is True] *)
Definition is_not_None (v : val) : bool :=
  match v with VNone => false | _ => true end.
Definition is_True (v : val) : bool :=
  match v with VBool true => true | _ => false end.

(** Truth value of an object, as tested by [not x]. *)
Definition truthy (v : val) : M bool :=
  fun h => (Ok match v with
               | VNone => false
               | VBool b => b
               | VInt n => negb (n =? 0)%Z
               | VFloat (S754_zero _) => false
               | VFloat _ => true
               | VStr s => negb (String.eqb s "")
               | VDateTime _ => true
               | VConn _ => true
               | VRef l =>
                   match h !! l with
                   | Some (OList _ []) => false
                   | Some (ODict []) => false
                   | _ => true
                   end
               end, h).

(** Lists and dicts cannot be dictionary keys. *)
Definition hashable (v : val) : M unit :=
  fun h => match v with
           | VRef l =>
               match h !! l with
               | Some (OList _ _) | Some (ODict _) => (Raise TypeError, h)
               | _ => (Ok tt, h)
               end
           | _ => (Ok tt, h)
           end.

(** [d.get(k)] on a dictionary with string keys and string values. *)
Definition dict_get (d : gmap string string) (k : val) : M val :=
  hashable k;;
  mret match k with
      | VStr s => match d !! s with Some v => VStr v | None => VNone end
      | _ => VNone
      end.

(** [d[k]] on a dictionary with string keys and string values. *)
Definition dict_getitem (d : gmap string string) (k : val) : M val :=
  hashable k;;
  match k with
  | VStr s => match d !! s with Some v => mret (VStr v) | None => raise KeyError end
  | _ => raise KeyError
  end.

(** ** The collaborators *)

(** The methods of the connection that the alarm calls. *)
Record Connection := {
  set_alarm_state : val -> val -> val -> val -> M val;
  update_alarm : val -> M val;
  enable_alarm_actions : val -> M val;
  disable_alarm_actions : val -> M val;
  describe_alarm_history :
    val -> val -> val -> val -> val -> val -> M val;
  delete_alarms : val -> M val }.

(** What the interpreter and its library do and this file does not spell
    out: the builtins [float] and [int], [json.loads], the elements that
    [ListElement(x)] collects from [x], the subscription [v[k]] of a value,
    the assignment of a dictionary to [__dict__] (the dictionary becomes
    the attribute store of the instance and stays shared with it, which
    the store of this file does not express), and the methods of each
    connection. *)
Record Env := {
  py_float : val -> result spec_float;
  py_int : val -> result Z;
  json_loads : val -> M val;
  ListElement_items : val -> heap -> result (list val);
  py_getitem : val -> val -> M val;
  set_dict : loc -> loc -> M unit;
  connections : nat -> Connection }.

(** The builtin [setattr(o, name, v)], also for a name that is only known
    at run time.  Three names do not go to the attribute store of an
    instance: [__class__] takes classes only, and no value here is a
    class; [__weakref__] is not writable; [__dict__] takes dictionaries
    only. *)
Definition py_setattr (E : Env) (o : val) (name : string) (v : val) : M unit :=
  if decide (name = "__class__") then raise TypeError
  else if decide (name = "__weakref__") then raise AttributeError
  else if decide (name = "__dict__") then
    fun h => match o, v with
             | VRef self, VRef d =>
                 match h !! self, h !! d with
                 | Some (OInst _ _), Some (ODict _) => set_dict E self d h
                 | Some (OInst _ _), _ => (Raise TypeError, h)
                 | _, _ => (Raise AttributeError, h)
                 end
             | VRef self, _ =>
                 match h !! self with
                 | Some (OInst _ _) => (Raise TypeError, h)
                 | _ => (Raise AttributeError, h)
                 end
             | _, _ => (Raise AttributeError, h)
             end
  else setattr o name v.

(** [o.name] where the class of [o] has an attribute [name] too: the
    instance attribute, if there is one, is found first. *)
Definition getattr_or {A} (o : val) (name : string)
    (found : val -> M A) (of_class : M A) : M A :=
  fun h => match o with
           | VRef l =>
               match h !! l with
               | Some (OInst _ attrs) =>
                   match attrs !! name with
                   | Some v => found v h
                   | None => of_class h
                   end
               | _ => (Raise AttributeError, h)
               end
           | _ => (Raise AttributeError, h)
           end.

(** What [self.connection.name] finds: a method of a connection, or an
    attribute that an instance of the store carries under that name (the
    fall-through of [MetricAlarm.endElement] can make one). *)
Inductive callee :=
| Method (c : Connection)
| Attribute (v : val).

(** Looking [name] up on the value [v] of [self.connection].  A connection
    has the six methods.  Neither class of this file nor any list,
    dictionary, number, string, date or [None] has an attribute of one of
    those six names, so only an instance attribute can be found there. *)
Definition method_of (E : Env) (v : val) (name : string) : M callee :=
  fun h => match v with
           | VConn c => (Ok (Method (connections E c)), h)
           | VRef l =>
               match h !! l with
               | Some (OInst _ attrs) =>
                   match attrs !! name with
                   | Some f => (Ok (Attribute f), h)
                   | None => (Raise AttributeError, h)
                   end
               | _ => (Raise AttributeError, h)
               end
           | _ => (Raise AttributeError, h)
           end.

(** Calling what was found, once the arguments are evaluated.  No value
    of this file is a function: a connection is known by its six methods
    and is not called itself. *)
Definition call (f : callee) (method : Connection -> M val) : M val :=
  match f with
  | Method c => method c
  | Attribute _ => raise TypeError
  end.

(** Modelled from the spec: [ListElement] is defined in
    boto/ec2/cloudwatch/listelement.py, which is not among the sources; the
    spec describes it as a fresh growable sequence of strings.  Without an
    argument the sequence starts empty. *)
Definition ListElement (E : Env) (init : option val) : M val :=
  match init with
  | None => alloc (OList ListElementCls [])
  | Some x =>
      items ← reads (ListElement_items E x);
      alloc (OList ListElementCls items)
  end.

(** ** class MetricAlarm *)

Module MetricAlarm.

Definition OK := "OK".
Definition ALARM := "ALARM".
Definition INSUFFICIENT_DATA := "INSUFFICIENT_DATA".

Definition _cmp_map : gmap string string :=
  list_to_map [ (">=", "GreaterThanOrEqualToThreshold");
                (">",  "GreaterThanThreshold");
                ("<",  "LessThanThreshold");
                ("<=", "LessThanOrEqualToThreshold") ].

(** [dict((v, k) for (k, v) in _cmp_map.iteritems())] *)
Definition _rev_cmp_map : gmap string string :=
  list_to_map ((fun kv => (kv.2, kv.1)) <$> map_to_list _cmp_map).

(** The keyword arguments of the constructor; each defaults to [None]. *)
Record kwargs := {
  connection : val; name : val; metric : val; namespace : val;
  statistic : val; comparison : val; threshold : val;
  period : val; evaluation_periods : val; actions_enabled : val;
  alarm_action : val; dimensions : val }.

Definition defaults : kwargs :=
  {| connection := VNone; name := VNone; metric := VNone;
     namespace := VNone; statistic := VNone; comparison := VNone;
     threshold := VNone; period := VNone; evaluation_periods := VNone;
     actions_enabled := VNone; alarm_action := VNone;
     dimensions := VNone |}.

Section Methods.
Variable E : Env.

(** The arguments that the conversions of the constructor take: what is
    not [None] converts, and the comparison is a plain value, not an
    object of the store. *)
Definition accepted (kw : kwargs) : Prop :=
  (threshold kw <> VNone -> exists x, py_float E (threshold kw) = Ok x) /\
  (forall l, comparison kw <> VRef l) /\
  (period kw <> VNone -> exists n, py_int E (period kw) = Ok n) /\
  (evaluation_periods kw <> VNone ->
     exists n, py_int E (evaluation_periods kw) = Ok n) /\
  (alarm_action kw <> VNone ->
     forall h, exists items, ListElement_items E (alarm_action kw) h = Ok items).

Definition __init__ (self : loc) (kw : kwargs) : M unit :=
  let self := VRef self in
  setattr self "name" (name kw);;
  setattr self "connection" (connection kw);;
  setattr self "metric" (metric kw);;
  setattr self "namespace" (namespace kw);;
  setattr self "statistic" (statistic kw);;
  (if is_not_None (threshold kw) then
     x ← lift (py_float E (threshold kw));
     setattr self "threshold" (VFloat x)
   else
     setattr self "threshold" VNone);;
  c ← dict_get _cmp_map (comparison kw);
  setattr self "comparison" c;;
  p ← (if is_not_None (period kw)
       then n ← lift (py_int E (period kw)); mret (VInt n)
       else mret VNone);
  setattr self "period" p;;
  p ← (if is_not_None (evaluation_periods kw)
       then n ← lift (py_int E (evaluation_periods kw)); mret (VInt n)
       else mret VNone);
  setattr self "evaluation_periods" p;;
  setattr self "actions_enabled"
    (if is_True (actions_enabled kw) then VInt 1 else VInt 0);;
  setattr self "alarm_arn" VNone;;
  setattr self "last_updated" VNone;;
  setattr self "description" (VStr "");;
  setattr self "dimensions" (dimensions kw);;
  l ← alloc (OList ListCls []);
  setattr self "insufficient_data_actions" l;;
  l ← alloc (OList ListCls []);
  setattr self "ok_actions" l;;
  setattr self "state_reason" VNone;;
  setattr self "state_value" VNone;;
  setattr self "unit" VNone;;
  l ← (if is_not_None (alarm_action kw)
       then ListElement E (Some (alarm_action kw))
       else mret VNone);
  setattr self "alarm_actions" l.

(** The call [MetricAlarm(...)]: a new instance without attributes is
    made, initialised, and returned. *)
Definition create (kw : kwargs) : M loc :=
  self ← alloc (OInst MetricAlarmCls ∅);
  match self with
  | VRef l => __init__ l kw;; mret l
  | _ => raise TypeError
  end.

Definition startElement (self : loc) (name : string)
    (attrs connection : val) : M val :=
  let self := VRef self in
  if decide (name = "AlarmActions") then
    l ← ListElement E None;
    setattr self "alarm_actions" l;;
    getattr self "alarm_actions"
  else if decide (name = "InsufficientDataActions") then
    l ← ListElement E None;
    setattr self "insufficient_data_actions" l;;
    getattr self "insufficient_data_actions"
  else if decide (name = "OKActions") then
    l ← ListElement E None;
    setattr self "ok_actions" l;;
    getattr self "ok_actions"
  else
    mret VNone.

Definition endElement (self : loc) (name : string)
    (value connection : val) : M val :=
  let self := VRef self in
  (if decide (name = "ActionsEnabled") then
     setattr self "actions_enabled" value
   else if decide (name = "AlarmArn") then
     setattr self "alarm_arn" value
   else if decide (name = "AlarmConfigurationUpdatedTimestamp") then
     setattr self "last_updated" value
   else if decide (name = "AlarmDescription") then
     setattr self "description" value
   else if decide (name = "AlarmName") then
     setattr self "name" value
   else if decide (name = "ComparisonOperator") then
     c ← getattr_or self "_rev_cmp_map"
           (fun m => py_getitem E m value)
           (dict_getitem _rev_cmp_map value);
     py_setattr E self "comparison" c
   else if decide (name = "EvaluationPeriods") then
     n ← lift (py_int E value);
     setattr self "evaluation_periods" (VInt n)
   else if decide (name = "MetricName") then
     setattr self "metric" value
   else if decide (name = "Namespace") then
     setattr self "namespace" value
   else if decide (name = "Period") then
     n ← lift (py_int E value);
     setattr self "period" (VInt n)
   else if decide (name = "StateReason") then
     setattr self "state_reason" value
   else if decide (name = "StateValue") then
     setattr self "state_value" value
   else if decide (name = "Statistic") then
     setattr self "statistic" value
   else if decide (name = "Threshold") then
     x ← lift (py_float E value);
     setattr self "threshold" (VFloat x)
   else if decide (name = "Unit") then
     setattr self "unit" value
   else
     py_setattr E self name value);;
  mret VNone.

Definition set_state (self : loc) (value reason data : val) : M val :=
  c ← getattr (VRef self) "connection";
  f ← method_of E c "set_alarm_state";
  n ← getattr (VRef self) "name";
  call f (fun conn => set_alarm_state conn n reason value data).

Definition update (self : loc) : M val :=
  c ← getattr (VRef self) "connection";
  f ← method_of E c "update_alarm";
  call f (fun conn => update_alarm conn (VRef self)).

Definition enable_actions (self : loc) : M val :=
  c ← getattr (VRef self) "connection";
  f ← method_of E c "enable_alarm_actions";
  n ← getattr (VRef self) "name";
  names ← alloc (OList ListCls [n]);
  call f (fun conn => enable_alarm_actions conn names).

Definition disable_actions (self : loc) : M val :=
  c ← getattr (VRef self) "connection";
  f ← method_of E c "disable_alarm_actions";
  n ← getattr (VRef self) "name";
  names ← alloc (OList ListCls [n]);
  call f (fun conn => disable_alarm_actions conn names).

Definition describe_history (self : loc)
    (start_date end_date max_records history_item_type next_token : val)
    : M val :=
  c ← getattr (VRef self) "connection";
  f ← method_of E c "describe_alarm_history";
  n ← getattr (VRef self) "name";
  call f (fun conn =>
            describe_alarm_history conn n start_date end_date max_records
              history_item_type next_token).

Definition add_alarm_action (self : loc) (action_arn : val) : M val :=
  t ← truthy action_arn;
  if negb t then mret VNone
  else
    setattr (VRef self) "actions_enabled" (VStr "true");;
    l ← getattr (VRef self) "alarm_actions";
    append l action_arn;;
    mret VNone.

Definition add_insufficient_data_action (self : loc) (action_arn : val)
    : M val :=
  t ← truthy action_arn;
  if negb t then mret VNone
  else
    setattr (VRef self) "actions_enabled" (VStr "true");;
    l ← getattr (VRef self) "insufficient_data_actions";
    append l action_arn;;
    mret VNone.

Definition add_ok_action (self : loc) (action_arn : val) : M val :=
  t ← truthy action_arn;
  if negb t then mret VNone
  else
    setattr (VRef self) "actions_enabled" (VStr "true");;
    l ← getattr (VRef self) "ok_actions";
    append l action_arn;;
    mret VNone.

(** The body is a call statement; there is no [return]. *)
Definition delete (self : loc) : M val :=
  c ← getattr (VRef self) "connection";
  f ← method_of E c "delete_alarms";
  alarms ← alloc (OList ListCls [VRef self]);
  call f (fun conn => delete_alarms conn alarms);;
  mret VNone.




End Methods.

(** The attribute dictionary that [__init__] leaves behind, read off its
    twenty assignments in order: [t], [c], [p] and [e] are the converted
    threshold, comparison, period and evaluation periods, [ida] and [oka]
    the two new lists, [aa] the alarm actions. *)
Definition init_attrs (kw : kwargs) (a0 : gmap string val)
    (t c p e ida oka aa : val) : gmap string val :=
  <["alarm_actions" := aa]> (<["unit" := VNone]> (<["state_value" := VNone]>
  (<["state_reason" := VNone]> (<["ok_actions" := oka]>
  (<["insufficient_data_actions" := ida]>
  (<["dimensions" := dimensions kw]>
  (<["description" := VStr ""]> (<["last_updated" := VNone]>
  (<["alarm_arn" := VNone]>
  (<["actions_enabled" :=
       if is_True (actions_enabled kw) then VInt 1 else VInt 0]>
  (<["evaluation_periods" := e]> (<["period" := p]> (<["comparison" := c]>
  (<["threshold" := t]> (<["statistic" := statistic kw]>
  (<["namespace" := namespace kw]>
  (<["metric" := metric kw]>
  (<["connection" := connection kw]>
  (<["name" := name kw]> a0))))))))))))))))))).

Definition symbolic_operators : list string := [">="; ">"; "<"; "<="].
Definition wire_operators : list string :=
  [ "GreaterThanOrEqualToThreshold"; "GreaterThanThreshold";
    "LessThanThreshold"; "LessThanOrEqualToThreshold" ].

End MetricAlarm.

(** ** datetime.strptime(value, '%Y-%m-%dT%H:%M:%S.%fZ')

    The library turns the format into a regular expression, one named group
    per directive, compiled to match letters without regard to case; the
    text must match from its first character and nothing may remain after
    the match.  The groups are then read as numbers and handed to the
    [date] and [datetime] constructors, which check their ranges.  Every
    failure is a [ValueError]. *)

Module _strptime.

Inductive regex :=
| Eps
| Cls (p : ascii -> bool)           (* one character of a class *)
| Seq (r1 r2 : regex)
| Alt (r1 r2 : regex)               (* tried left to right, backtracking *)
| Group (name : string) (r : regex).

Abbreviation groups := (gmap string (list ascii)).

(** Backtracking matcher: [k] is tried on every way [r] matches a prefix
    of [s], in the order of the alternatives, until it accepts one. *)
Fixpoint rmatch {A} (r : regex) (s : list ascii) (g : groups)
    (k : groups -> list ascii -> option A) : option A :=
  match r with
  | Eps => k g s
  | Cls p =>
      match s with
      | c :: s' => if p c then k g s' else None
      | [] => None
      end
  | Seq r1 r2 => rmatch r1 s g (fun g' s' => rmatch r2 s' g' k)
  | Alt r1 r2 =>
      match rmatch r1 s g k with
      | Some a => Some a
      | None => rmatch r2 s g k
      end
  | Group name r =>
      rmatch r s g (fun g' s' =>
        k (<[name := take (length s - length s') s]> g') s')
  end.

Definition code (c : ascii) : N := N_of_ascii c.
Definition between (lo hi : string) (c : ascii) : bool :=
  match lo, hi with
  | String a "", String b "" => (code a <=? code c)%N && (code c <=? code b)%N
  | _, _ => false
  end.
Definition d : regex := Cls (between "0" "9").            (* \d *)
Definition lit (c : string) : regex := Cls (between c c).
Definition ilit (lower upper : string) : regex :=         (* IGNORECASE *)
  Cls (fun c => between lower lower c || between upper upper c).
Definition opt (r : regex) : regex := Alt r Eps.          (* greedy r? *)

Infix "·" := Seq (at level 40, left associativity).
Infix "|||" := Alt (at level 50, left associativity).

Definition re_Y := Group "Y" (d · d · d · d).
Definition re_m := Group "m"
  (lit "1" · Cls (between "0" "2") ||| lit "0" · Cls (between "1" "9")
   ||| Cls (between "1" "9")).
Definition re_d := Group "d"
  (lit "3" · Cls (between "0" "1") ||| Cls (between "1" "2") · d
   ||| lit "0" · Cls (between "1" "9") ||| Cls (between "1" "9")
   ||| lit " " · Cls (between "1" "9")).
Definition re_H := Group "H"
  (lit "2" · Cls (between "0" "3") ||| Cls (between "0" "1") · d ||| d).
Definition re_M := Group "M" (Cls (between "0" "5") · d ||| d).
Definition re_S := Group "S"
  (lit "6" · Cls (between "0" "1") ||| Cls (between "0" "5") · d ||| d).
Definition re_f := Group "f"                               (* [0-9]{1,6} *)
  (d · opt (d · opt (d · opt (d · opt (d · opt d))))).

(** The regular expression of ['%Y-%m-%dT%H:%M:%S.%fZ']. *)
Definition format_regex : regex :=
  re_Y · lit "-" · re_m · lit "-" · re_d · ilit "t" "T" · re_H · lit ":"
  · re_M · lit ":" · re_S · lit "." · re_f · ilit "z" "Z".

(** [int(s)] on the text of a group: decimal digits, after a blank in
    the case of a one-digit day. *)
Definition int (s : list ascii) : Z :=
  fold_left (fun (n : Z) c =>
               if between "0" "9" c
               then (10 * n + Z.of_N (code c - code "0"%char))%Z
               else n) s 0%Z.

Definition is_leap (y : Z) : bool :=
  ((y mod 4 =? 0) && (negb (y mod 100 =? 0) || (y mod 400 =? 0)))%Z.

Definition days_in_month (y m : Z) : Z :=
  (if m =? 2 then (if is_leap y then 29 else 28)
   else if (m =? 4) || (m =? 6) || (m =? 9) || (m =? 11) then 30
   else 31)%Z.

Definition group (g : groups) (name : string) : list ascii :=
  default [] (g !! name).

Definition _strptime (data_string : string) : result datetime :=
  let s := list_ascii_of_string data_string in
  match rmatch format_regex s ∅ (fun g rest => Some (g, rest)) with
  | None => Raise ValueError               (* does not match format *)
  | Some (g, _ :: _) => Raise ValueError   (* unconverted data remains *)
  | Some (g, []) =>
      let year := int (group g "Y") in
      let month := int (group g "m") in
      let day := int (group g "d") in
      let hour := int (group g "H") in
      let minute := int (group g "M") in
      let second := int (group g "S") in
      let f := group g "f" in
      let fraction := int (f ++ replicate (6 - length f) "0"%char) in
      (* date(year, month, day), then datetime(..., second, fraction) *)
      if ((1 <=? year) && (year <=? 9999) && (1 <=? month) && (month <=? 12)
          && (1 <=? day) && (day <=? days_in_month year month)
          && (0 <=? hour) && (hour <=? 23) && (0 <=? minute)
          && (minute <=? 59) && (0 <=? second) && (second <=? 59)
          && (0 <=? fraction) && (fraction <=? 999999))%Z
      then Ok (mk_datetime year month day hour minute second fraction)
      else Raise ValueError
  end.

(** The text argument has to be a string. *)
Definition strptime (value : val) : result datetime :=
  match value with
  | VStr s => _strptime s
  | _ => Raise TypeError
  end.

End _strptime.

(** ** class AlarmHistoryItem *)

Module AlarmHistoryItem.
Section Methods.
Variable E : Env.

Definition __init__ (self : loc) (connection : val) : M unit :=
  setattr (VRef self) "connection" connection.

Definition create (connection : val) : M loc :=
  self ← alloc (OInst AlarmHistoryItemCls ∅);
  match self with
  | VRef l => __init__ l connection;; mret l
  | _ => raise TypeError
  end.

Definition startElement (self : loc) (name : string)
    (attrs connection : val) : M val :=
  mret VNone.

Definition endElement (self : loc) (name : string)
    (value connection : val) : M val :=
  let self := VRef self in
  (if decide (name = "AlarmName") then
     setattr self "name" value
   else if decide (name = "HistoryData") then
     data ← json_loads E value;
     setattr self "data" data
   else if decide (name = "HistoryItemType") then
     setattr self "tem_type" value
   else if decide (name = "HistorySummary") then
     setattr self "summary" value
   else if decide (name = "Timestamp") then
     t ← lift (_strptime.strptime value);
     setattr self "timestamp" (VDateTime t)
   else
     mret tt);;
  mret VNone.

End Methods.
End AlarmHistoryItem.

(** ** An environment for examples

    Numbers convert as in Python; text converts when it is a plain run of
    decimal digits (signs, blanks and fractions are left out here).  The
    connection answers [True] to every request. *)

Module Example.

Definition digits (s : string) : option Z :=
  let cs := list_ascii_of_string s in
  if forallb (_strptime.between "0" "9") cs && negb (bool_decide (cs = []))
  then Some (_strptime.int cs) else None.

Definition float_of_Z (n : Z) : result spec_float :=
  match binary_normalize 53 1024 n 0 false with
  | S754_infinity _ => Raise (OtherError "OverflowError")
  | x => Ok x
  end.

Definition float (v : val) : result spec_float :=
  match v with
  | VFloat x => Ok x
  | VInt n => float_of_Z n
  | VBool b => float_of_Z (if b then 1 else 0)
  | VStr s => match digits s with
              | Some n => float_of_Z n
              | None => Raise ValueError
              end
  | _ => Raise TypeError
  end.

Definition int (v : val) : result Z :=
  match v with
  | VInt n => Ok n
  | VBool b => Ok (if b then 1 else 0)%Z
  | VFloat (S754_zero _) => Ok 0%Z
  | VFloat (S754_finite s m e) =>
      let a := match e with
               | Zneg k => Z.shiftr (Zpos m) (Zpos k)
               | _ => Z.shiftl (Zpos m) e
               end in
      Ok (if s then - a else a)%Z
  | VFloat (S754_infinity _) => Raise (OtherError "OverflowError")
  | VFloat S754_nan => Raise ValueError
  | VStr s => match digits s with
              | Some n => Ok n
              | None => Raise ValueError
              end
  | _ => Raise TypeError
  end.

(** [list(x)] *)
Definition items (v : val) (h : heap) : result (list val) :=
  match v with
  | VStr s => Ok ((fun c => VStr (String c "")) <$> list_ascii_of_string s)
  | VRef l => match h !! l with
              | Some (OList _ xs) => Ok xs
              | Some (ODict kvs) => Ok (kvs.*1)
              | _ => Raise TypeError
              end
  | _ => Raise TypeError
  end.

Definition loads (v : val) : M val :=
  match v with
  | VStr "null" => mret VNone
  | VStr "true" => mret (VBool true)
  | VStr "false" => mret (VBool false)
  | VStr "[]" => alloc (OList ListCls [])
  | VStr "{}" => alloc (ODict [])
  | VStr s => match digits s with
              | Some n => mret (VInt n)
              | None => raise ValueError
              end
  | _ => raise TypeError
  end.

Definition conn : Connection :=
  {| set_alarm_state := fun _ _ _ _ => mret (VBool true);
     update_alarm := fun _ => mret (VBool true);
     enable_alarm_actions := fun _ => mret (VBool true);
     disable_alarm_actions := fun _ => mret (VBool true);
     describe_alarm_history := fun _ _ _ _ _ _ => alloc (OList ListCls []);
     delete_alarms := fun _ => mret (VBool true) |}.

(** An index counted from the end when it is negative. *)
Definition index {A} (xs : list A) (n : Z) : option A :=
  let i := (if n <? 0 then n + Z.of_nat (length xs) else n)%Z in
  if (i <? 0)%Z then None else xs !! Z.to_nat i.

(** [v[k]] on text and lists with an integer, on dictionaries with a
    string. *)
Definition getitem (v k : val) : M val :=
  fun h =>
    match v, k with
    | VStr s, VInt n =>
        match index (list_ascii_of_string s) n with
        | Some c => (Ok (VStr (String c "")), h)
        | None => (Raise (OtherError "IndexError"), h)
        end
    | VRef l, _ =>
        match h !! l, k with
        | Some (OList _ xs), VInt n =>
            match index xs n with
            | Some x => (Ok x, h)
            | None => (Raise (OtherError "IndexError"), h)
            end
        | Some (ODict kvs), VStr s =>
            match List.find (fun kv => match kv.1 with
                                       | VStr s' => String.eqb s s'
                                       | _ => false
                                       end) kvs with
            | Some kv => (Ok kv.2, h)
            | None => (Raise KeyError, h)
            end
        | Some (ODict kvs), _ => (Raise KeyError, h)
        | _, _ => (Raise TypeError, h)
        end
    | _, _ => (Raise TypeError, h)
    end.

(** [self.__dict__ = d]: the entries of [d] with a string key become the
    attributes (the sharing with [d] is not kept). *)
Definition rebind (self d : loc) : M unit :=
  fun h =>
    match h !! self, h !! d with
    | Some (OInst c _), Some (ODict kvs) =>
        (Ok tt,
         <[self := OInst c
             (list_to_map
                (omap (fun kv => match kv.1 with
                                 | VStr s => Some (s, kv.2)
                                 | _ => None
                                 end) kvs))]> h)
    | _, _ => (Raise TypeError, h)
    end.

Definition env : Env :=
  {| py_float := float; py_int := int; json_loads := loads;
     ListElement_items := items; py_getitem := getitem; set_dict := rebind;
     connections := fun _ => conn |}.

(** Evaluating a computation in the empty store. *)
Definition run {A} (m : M A) : result A * heap := m ∅.

End Example.

(** ** Tables and sample data of the statements *)

(** The pairs of the comparison map, symbolic operator first. *)
Definition cmp_table : list (string * string) :=
  [ (">=", "GreaterThanOrEqualToThreshold"); (">", "GreaterThanThreshold");
    ("<", "LessThanThreshold"); ("<=", "LessThanOrEqualToThreshold") ].

(** Constructor arguments of an alarm on CPU load with the given operator. *)
Definition kw_comparison (c : val) : MetricAlarm.kwargs :=
  {| MetricAlarm.connection := VNone; MetricAlarm.name := VStr "cpu-high";
     MetricAlarm.metric := VStr "CPUUtilization";
     MetricAlarm.namespace := VStr "AWS/EC2";
     MetricAlarm.statistic := VStr "Average"; MetricAlarm.comparison := c;
     MetricAlarm.threshold := VInt 80; MetricAlarm.period := VStr "60";
     MetricAlarm.evaluation_periods := VInt 3;
     MetricAlarm.actions_enabled := VBool true;
     MetricAlarm.alarm_action := VNone; MetricAlarm.dimensions := VNone |}.




(** A store with one alarm, at 1, whose [alarm_actions] is the list at 2. *)
Definition parsed_store : heap :=
  <[1%positive := OInst MetricAlarmCls
      (<["alarm_actions" := VRef 2%positive]> (<["name" := VStr "cpu-high"]> ∅))]>
  (<[2%positive := OList ListElementCls [VStr "arn:aws:sns:us-east-1:1:old"]]> ∅).

(** Constructor arguments of a named alarm that has a connection. *)
Definition kw_connected : MetricAlarm.kwargs :=
  {| MetricAlarm.connection := VConn 0; MetricAlarm.name := VStr "cpu-high";
     MetricAlarm.metric := VNone; MetricAlarm.namespace := VNone;
     MetricAlarm.statistic := VNone; MetricAlarm.comparison := VNone;
     MetricAlarm.threshold := VNone; MetricAlarm.period := VNone;
     MetricAlarm.evaluation_periods := VNone;
     MetricAlarm.actions_enabled := VNone;
     MetricAlarm.alarm_action := VNone; MetricAlarm.dimensions := VNone |}.


(** A store with one alarm, at 1, that has a name and the connection 0. *)
Definition connected_store : heap :=
  <[1%positive := OInst MetricAlarmCls
      (<["connection" := VConn 0]> (<["name" := VStr "cpu-high"]> ∅))]> ∅.

(** The same alarm without a connection, as the default argument leaves it. *)
Definition unconnected_store : heap :=
  <[1%positive := OInst MetricAlarmCls
      (<["connection" := VNone]> (<["name" := VStr "cpu-high"]> ∅))]> ∅.

(** Calling one of the [add_..._action] methods once for each element of a
    list, in order, as a caller with several ARNs does. *)
Fixpoint add_each (add : val -> M val) (arns : list val) : M unit :=
  match arns with
  | [] => mret tt
  | a :: arns => add a;; add_each add arns
  end.

(** The three methods with the attribute each appends to. *)
Definition adders : list (string * (loc -> val -> M val)) :=
  [ ("alarm_actions", MetricAlarm.add_alarm_action);
    ("insufficient_data_actions", MetricAlarm.add_insufficient_data_action);
    ("ok_actions", MetricAlarm.add_ok_action) ].

(** A non-empty string. *)
Definition is_arn (v : val) : Prop := exists s, v = VStr s /\ s <> "".

(** The nodes whose text [MetricAlarm.endElement] stores as it comes, each
    with the attribute it goes to. *)
Definition raw_nodes : list (string * string) :=
  [ ("ActionsEnabled", "actions_enabled"); ("AlarmArn", "alarm_arn");
    ("AlarmConfigurationUpdatedTimestamp", "last_updated");
    ("AlarmDescription", "description"); ("AlarmName", "name");
    ("MetricName", "metric"); ("Namespace", "namespace");
    ("StateReason", "state_reason"); ("StateValue", "state_value");
    ("Statistic", "statistic"); ("Unit", "unit") ].

(** The nodes whose text goes through [int]. *)
Definition int_nodes : list (string * string) :=
  [ ("EvaluationPeriods", "evaluation_periods"); ("Period", "period") ].

(** All fifteen node names that [MetricAlarm.endElement] tests for. *)
Definition known_nodes : list string :=
  raw_nodes.*1 ++ int_nodes.*1 ++ ["ComparisonOperator"; "Threshold"].

(** The six methods of a connection that the alarm calls. *)
Definition connection_methods : list string :=
  [ "set_alarm_state"; "update_alarm"; "enable_alarm_actions";
    "disable_alarm_actions"; "describe_alarm_history"; "delete_alarms" ].

(** The values on which none of the six names is found: everything but a
    connection and an instance that carries an attribute of such a name. *)
Definition lacks_methods (v : val) (h : heap) : Prop :=
  match v with
  | VConn _ => False
  | VRef l =>
      match h !! l with
      | Some (OInst _ attrs) =>
          forall m, m ∈ connection_methods -> attrs !! m = None
      | _ => True
      end
  | _ => True
  end.

(** ** The language of a regular expression

    What [r] matches, whatever the order in which a matcher tries the
    alternatives: [matches r w g g'] when [r] matches the whole of [w]
    and takes the groups from [g] to [g']. *)


(** ** The texts of ['%Y-%m-%dT%H:%M:%S.%fZ'], field by field

    Stated without the regular expression: which characters a timestamp is
    made of and which number each field writes. *)

Module WireTime.

Definition is_digit (c : ascii) : Prop := (48 <= N_of_ascii c <= 57)%N.
Definition digit_value (c : ascii) : Z := (Z.of_N (N_of_ascii c) - 48)%Z.

(** The number that a run of decimal digits writes. *)
Definition decimal (w : list ascii) : Z :=
  fold_left (fun n c => 10 * n + digit_value c)%Z w 0%Z.

(** One or two digits that write the number [n], from [lo] to [hi]. *)
Definition field (lo hi : Z) (w : list ascii) (n : Z) : Prop :=
  (length w = 1%nat \/ length w = 2%nat) /\ Forall is_digit w /\
  n = decimal w /\ (lo <= n <= hi)%Z.

(** The day may also be a blank and one digit. *)
Definition day_field (w : list ascii) (n : Z) : Prop :=
  field 1 31 w n \/
  exists c, w = [" "%char; c] /\ is_digit c /\ n = digit_value c /\ (1 <= n)%Z.

(** One to six digits, read as the first digits of six: [.5] is 500000
    microseconds. *)
Definition fraction_field (w : list ascii) (n : Z) : Prop :=
  (1 <= length w <= 6)%nat /\ Forall is_digit w /\
  n = (decimal w * 10 ^ Z.of_nat (6 - length w))%Z.

(** The text [s] is a timestamp of the format and [t] is the date and
    time that it writes: a year of four digits, not 0000, the other
    fields with or without a leading zero, a day that the month has, [T]
    and [Z] in either case. *)
Definition reads (s : string) (t : datetime) : Prop :=
  exists Y m d H M S f sep z,
    list_ascii_of_string s =
      (Y ++ "-"%char :: m ++ "-"%char :: d ++ sep :: H ++ ":"%char :: M
       ++ ":"%char :: S ++ "."%char :: f ++ [z])%list /\
    length Y = 4%nat /\ Forall is_digit Y /\ dt_year t = decimal Y /\
    (1 <= dt_year t)%Z /\
    field 1 12 m (dt_month t) /\
    day_field d (dt_day t) /\
    (dt_day t <= _strptime.days_in_month (dt_year t) (dt_month t))%Z /\
    (sep = "T"%char \/ sep = "t"%char) /\
    field 0 23 H (dt_hour t) /\
    field 0 59 M (dt_minute t) /\
    field 0 59 S (dt_second t) /\
    fraction_field f (dt_microsecond t) /\
    (z = "Z"%char \/ z = "z"%char).


Definition digit_char (n : Z) : ascii := ascii_of_N (48 + Z.to_N n).

(** The last [k] decimal digits of [n], most significant first. *)
Fixpoint digits (k : nat) (n : Z) : list ascii :=
  match k with
  | O => []
  | S k' => digits k' (n / 10) ++ [digit_char (n mod 10)]
  end.


End WireTime.


(** * Properties *)

(** ** Stepping through computations *)

Section Steps.
Context {A B : Type}.

Lemma bind_Ok (m : M A) (k : A -> M B) h a h' :
  m h = (Ok a, h') -> (m ≫= k) h = k a h'.
Proof. intros Hm. unfold mbind, M_bind, bind. by rewrite Hm. Qed.

Lemma bind_Raise (m : M A) (k : A -> M B) h e h' :
  m h = (Raise e, h') -> (m ≫= k) h = (Raise e, h').
Proof. intros Hm. unfold mbind, M_bind, bind. by rewrite Hm. Qed.

End Steps.

Lemma setattr_inst h l c attrs n v :
  h !! l = Some (OInst c attrs) ->
  setattr (VRef l) n v h = (Ok tt, <[l := OInst c (<[n := v]> attrs)]> h).
Proof. intros Hl. unfold setattr. by rewrite Hl. Qed.

Lemma getattr_inst h l c attrs n :
  h !! l = Some (OInst c attrs) ->
  getattr (VRef l) n h =
    (match attrs !! n with Some v => Ok v | None => Raise AttributeError end, h).
Proof. intros Hl. unfold getattr. rewrite Hl. by destruct (attrs !! n). Qed.

Lemma append_list h l c items x :
  h !! l = Some (OList c items) ->
  append (VRef l) x h = (Ok VNone, <[l := OList c (items ++ [x])]> h).
Proof. intros Hl. unfold append. by rewrite Hl. Qed.

Lemma fresh_None (h : heap) : h !! fresh (dom h) = None.
Proof. apply not_elem_of_dom, is_fresh. Qed.

Lemma fresh_ne (h : heap) l : is_Some (h !! l) -> l <> fresh (dom h).
Proof. intros [o Ho] ->. by rewrite fresh_None in Ho. Qed.

(** ** MetricAlarm.startElement *)

Section StartElement.
Variable E : Env.

Lemma startElement_other self name attrs conn h :
  name <> "AlarmActions" -> name <> "InsufficientDataActions" ->
  name <> "OKActions" ->
  MetricAlarm.startElement E self name attrs conn h = (Ok VNone, h).
Proof.
  intros H1 H2 H3. unfold MetricAlarm.startElement.
  by repeat case_decide.
Qed.

Lemma startElement_install self c attrs name field a conn h :
  h !! self = Some (OInst c attrs) ->
  (name, field) ∈ [("AlarmActions", "alarm_actions");
                   ("InsufficientDataActions", "insufficient_data_actions");
                   ("OKActions", "ok_actions")] ->
  MetricAlarm.startElement E self name a conn h =
    (Ok (VRef (fresh (dom h))),
     <[self := OInst c (<[field := VRef (fresh (dom h))]> attrs)]>
       (<[fresh (dom h) := OList ListElementCls []]> h)).
Proof.
  intros Hself Hin.
  assert (Hne : self <> fresh (dom h)) by (apply fresh_ne; eauto).
  assert (Hself' : <[fresh (dom h) := OList ListElementCls []]> h !! self
                   = Some (OInst c attrs))
    by (by rewrite lookup_insert_ne).
  unfold MetricAlarm.startElement.
  repeat (apply elem_of_cons in Hin as [[= -> ->]|Hin]);
    [| | |by apply elem_of_nil in Hin]; simpl;
    (erewrite bind_Ok; [|reflexivity]);
    (erewrite bind_Ok; [|by apply setattr_inst]);
    (erewrite getattr_inst; [|apply lookup_insert_eq]);
    by rewrite lookup_insert_eq.
Qed.
End StartElement.

(** ** MetricAlarm.__init__ *)

Lemma setattr_top h l c attrs n v :
  setattr (VRef l) n v (<[l := OInst c attrs]> h) =
    (Ok tt, <[l := OInst c (<[n := v]> attrs)]> h).
Proof.
  erewrite setattr_inst by apply lookup_insert_eq.
  by rewrite insert_insert_eq.
Qed.

Lemma alloc_beside l X o (h : heap) :
  exists l', alloc o (<[l := X]> h) = (Ok (VRef l'), <[l := X]> (<[l' := o]> h))
             /\ l' <> l /\ h !! l' = None.
Proof.
  exists (fresh (dom (<[l := X]> h))).
  pose proof (fresh_None (<[l := X]> h)) as [Hne Hl]%lookup_insert_None.
  split_and!; [|done..].
  unfold alloc. by rewrite insert_insert_ne.
Qed.

Lemma dict_get_str d s h :
  dict_get d (VStr s) h =
    (Ok (match d !! s with Some w => VStr w | None => VNone end), h).
Proof. reflexivity. Qed.

Lemma dict_get_plain d v :
  (forall l, v <> VRef l) ->
  exists r, (forall h, dict_get d v h = (Ok r, h)) /\
    (r = VNone \/ exists s w, v = VStr s /\ d !! s = Some w /\ r = VStr w).
Proof.
  intros Hv. destruct v; try (by eexists; split; [reflexivity|left]).
  - exists (match d !! s with Some w => VStr w | None => VNone end).
    split; [done|]. destruct (d !! s) eqn:Hs; eauto 10.
  - by destruct (Hv l).
Qed.

Section Init.
Variable E : Env.

Lemma float_if_given v (post : val -> M unit) :
  (v <> VNone -> exists x, py_float E v = Ok x) ->
  exists t : val, forall h,
    (if is_not_None v
     then x ← lift (py_float E v); post (VFloat x)
     else post VNone) h = post t h.
Proof.
  intros Hv. destruct (is_not_None v) eqn:Hn.
  - destruct Hv as [x Hx]; [by intros ->|].
    exists (VFloat x). intros h. erewrite bind_Ok; [done|].
    unfold lift. by rewrite Hx.
  - by exists VNone.
Qed.

Lemma int_if_given v :
  (v <> VNone -> exists n, py_int E v = Ok n) ->
  exists p : val, forall h,
    (if is_not_None v
     then n ← lift (py_int E v); mret (VInt n)
     else mret VNone) h = (Ok p, h).
Proof.
  intros Hv. destruct (is_not_None v) eqn:Hn.
  - destruct Hv as [n Hn']; [by intros ->|].
    exists (VInt n). intros h. erewrite bind_Ok; [done|].
    unfold lift. by rewrite Hn'.
  - by exists VNone.
Qed.

Lemma ListElement_if_given v l X (h : heap) :
  (v <> VNone -> forall h', exists items, ListElement_items E v h' = Ok items) ->
  exists a h',
    (if is_not_None v then ListElement E (Some v) else mret VNone)
      (<[l := X]> h) = (Ok a, <[l := X]> h') /\
    (v = VNone -> a = VNone /\ h' = h) /\
    (forall l', is_Some (h !! l') -> h' !! l' = h !! l').
Proof.
  intros Hv. destruct (is_not_None v) eqn:Hn.
  - destruct (Hv ltac:(by intros ->) (<[l := X]> h)) as [items Hitems].
    destruct (alloc_beside l X (OList ListElementCls items) h)
      as (l' & Ha & Hne & Hl').
    exists (VRef l'), (<[l' := OList ListElementCls items]> h).
    split_and!.
    + unfold ListElement. erewrite bind_Ok; [done|].
      unfold reads. by rewrite Hitems.
    + by intros ->.
    + intros l0 [o Ho]. rewrite lookup_insert_ne; [done|]. congruence.
  - exists VNone, h. split_and!; [done|done|done].
Qed.

Lemma init_accepted self kw cls a0 (h : heap) :
  MetricAlarm.accepted E kw ->
  exists t c p e l1 l2 aa h',
    MetricAlarm.__init__ E self kw (<[self := OInst cls a0]> h) =
      (Ok tt, <[self := OInst cls
                  (MetricAlarm.init_attrs kw a0 t c p e (VRef l1) (VRef l2) aa)]> h') /\
    dict_get MetricAlarm._cmp_map (MetricAlarm.comparison kw) h = (Ok c, h) /\
    l1 <> self /\ l2 <> self /\ l1 <> l2 /\
    h !! l1 = None /\ h !! l2 = None /\
    h' !! l1 = Some (OList ListCls []) /\
    h' !! l2 = Some (OList ListCls []) /\
    (MetricAlarm.alarm_action kw = VNone -> aa = VNone) /\
    (forall l', is_Some (h !! l') -> h' !! l' = h !! l').
Proof.
  intros (Ht & Hc & Hp & He & Ha).
  destruct (float_if_given _ (setattr (VRef self) "threshold") Ht) as [t Ht'].
  destruct (dict_get_plain MetricAlarm._cmp_map _ Hc) as (c & Hc' & _).
  destruct (int_if_given _ Hp) as [p Hp'].
  destruct (int_if_given _ He) as [e He'].
  destruct (MetricAlarm.__init__ _ _ _ _) as [r hf] eqn:Hrun.
  unfold MetricAlarm.__init__ in Hrun.
  do 5 (erewrite bind_Ok in Hrun; [|apply setattr_top]).
  erewrite bind_Ok in Hrun; [|rewrite Ht'; apply setattr_top].
  erewrite bind_Ok in Hrun; [|apply Hc'].
  erewrite bind_Ok in Hrun; [|apply setattr_top].
  erewrite bind_Ok in Hrun; [|apply Hp'].
  erewrite bind_Ok in Hrun; [|apply setattr_top].
  erewrite bind_Ok in Hrun; [|apply He'].
  do 6 (erewrite bind_Ok in Hrun; [|apply setattr_top]).
  lazymatch type of Hrun with
  | (_ ≫= _) (<[_ := ?X]> _) = _ =>
      destruct (alloc_beside self X (OList ListCls []) h)
        as (l1 & Hl1 & Hne1 & Hfr1)
  end.
  erewrite bind_Ok in Hrun; [|apply Hl1].
  erewrite bind_Ok in Hrun; [|apply setattr_top].
  lazymatch type of Hrun with
  | (_ ≫= _) (<[_ := ?X]> ?h1) = _ =>
      destruct (alloc_beside self X (OList ListCls []) h1)
        as (l2 & Hl2 & Hne2 & Hfr2)
  end.
  erewrite bind_Ok in Hrun; [|apply Hl2].
  do 4 (erewrite bind_Ok in Hrun; [|apply setattr_top]).
  lazymatch type of Hrun with
  | (_ ≫= _) (<[_ := ?X]> ?h2) = _ =>
      destruct (ListElement_if_given _ self X h2 Ha)
        as (aa & h' & Haa & HaN & Hframe)
  end.
  erewrite bind_Ok in Hrun; [|apply Haa].
  rewrite setattr_top in Hrun. injection Hrun as <- <-.
  apply lookup_insert_None in Hfr2 as [Hfr2 Hne12].
  exists t, c, p, e, l1, l2, aa, h'. split_and!; try done.
  - rewrite Hframe; [|by rewrite lookup_insert_ne, lookup_insert_eq].
    by rewrite lookup_insert_ne, lookup_insert_eq.
  - rewrite Hframe by (by rewrite lookup_insert_eq). apply lookup_insert_eq.
  - intros HN. by destruct (HaN HN).
  - intros l' Hl'. rewrite Hframe.
    + rewrite !lookup_insert_ne; [done|..]; intros ->;
        destruct Hl' as [? Hl']; congruence.
    + rewrite !lookup_insert_ne; [done|..]; intros ->;
        destruct Hl' as [? Hl']; congruence.
Qed.
End Init.

(** ** The comparison maps *)

#[local] Set Warnings "-clear-no-such-hyp".

Lemma cmp_map_Some op wire :
  MetricAlarm._cmp_map !! op = Some wire <-> (op, wire) ∈ cmp_table.
Proof.
  unfold MetricAlarm._cmp_map, cmp_table. simpl list_to_map.
  rewrite !elem_of_cons, elem_of_nil.
  rewrite !lookup_insert, lookup_empty.
  repeat case_decide; naive_solver.
Qed.

Lemma rev_cmp_map_unfold :
  MetricAlarm._rev_cmp_map =
    list_to_map ((fun kv => (kv.2, kv.1)) <$> cmp_table).
Proof. vm_compute. reflexivity. Qed.

Lemma rev_cmp_map_Some wire op :
  MetricAlarm._rev_cmp_map !! wire = Some op <-> (op, wire) ∈ cmp_table.
Proof.
  rewrite rev_cmp_map_unfold. unfold cmp_table. simpl list_to_map.
  rewrite !elem_of_cons, elem_of_nil.
  rewrite !lookup_insert, lookup_empty.
  repeat case_decide; naive_solver.
Qed.

Lemma cmp_table_symbolic op wire :
  (op, wire) ∈ cmp_table -> op ∈ MetricAlarm.symbolic_operators.
Proof.
  unfold cmp_table, MetricAlarm.symbolic_operators.
  rewrite !elem_of_cons, !elem_of_nil. naive_solver.
Qed.

Lemma cmp_table_wire op wire :
  (op, wire) ∈ cmp_table -> wire ∈ MetricAlarm.wire_operators.
Proof.
  unfold cmp_table, MetricAlarm.wire_operators.
  rewrite !elem_of_cons, !elem_of_nil. naive_solver.
Qed.

Lemma symbolic_in_table op :
  op ∈ MetricAlarm.symbolic_operators -> exists wire, (op, wire) ∈ cmp_table.
Proof.
  unfold cmp_table, MetricAlarm.symbolic_operators.
  rewrite !elem_of_cons, !elem_of_nil.
  intros [->|[->|[->|[->|[]]]]]; eexists; rewrite !elem_of_cons; eauto 6.
Qed.

Lemma wire_in_table wire :
  wire ∈ MetricAlarm.wire_operators -> exists op, (op, wire) ∈ cmp_table.
Proof.
  unfold cmp_table, MetricAlarm.wire_operators.
  rewrite !elem_of_cons, !elem_of_nil.
  intros [->|[->|[->|[->|[]]]]]; eexists; rewrite !elem_of_cons; eauto 6.
Qed.


Section Create.
Variable E : Env.

Lemma create_accepted kw (h : heap) :
  MetricAlarm.accepted E kw ->
  exists self t c p e l1 l2 aa h',
    MetricAlarm.create E kw h =
      (Ok self,
       <[self := OInst MetricAlarmCls
           (MetricAlarm.init_attrs kw ∅ t c p e (VRef l1) (VRef l2) aa)]> h') /\
    h !! self = None /\
    dict_get MetricAlarm._cmp_map (MetricAlarm.comparison kw) h = (Ok c, h) /\
    l1 <> self /\ l2 <> self /\ l1 <> l2 /\
    h !! l1 = None /\ h !! l2 = None /\
    h' !! l1 = Some (OList ListCls []) /\
    h' !! l2 = Some (OList ListCls []) /\
    (MetricAlarm.alarm_action kw = VNone -> aa = VNone) /\
    (forall l', is_Some (h !! l') -> h' !! l' = h !! l').
Proof.
  intros Hacc. set (self := fresh (dom h)).
  destruct (init_accepted E self kw MetricAlarmCls ∅ h Hacc)
    as (t & c & p & e & l1 & l2 & aa & h' & Hinit & Hc & ? & ? & ? & ? & ?
        & ? & ? & ? & ?).
  exists self, t, c, p, e, l1, l2, aa, h'. split_and!; try done.
  - unfold MetricAlarm.create.
    erewrite bind_Ok; [|reflexivity]. fold self. cbv beta iota.
    erewrite bind_Ok; [|apply Hinit]. done.
  - apply fresh_None.
Qed.
End Create.

Lemma init_attrs_comparison kw a0 t c p e ida oka aa :
  MetricAlarm.init_attrs kw a0 t c p e ida oka aa !! "comparison" = Some c.
Proof. unfold MetricAlarm.init_attrs. by simplify_map_eq. Qed.

(** ** Construction and the comparison operator *)

Section Comparison.
Variable E : Env.

(** C1: for each of the four symbolic operators, the constructor stores
    the wire form that [_cmp_map] gives, and looking the stored value up
    in [_rev_cmp_map] gives the symbolic operator back. *)
Theorem comparison_round_trip kw (h : heap) op :
  op ∈ MetricAlarm.symbolic_operators ->
  MetricAlarm.comparison kw = VStr op ->
  MetricAlarm.accepted E kw ->
  exists self h' attrs wire,
    MetricAlarm.create E kw h = (Ok self, h') /\
    h' !! self = Some (OInst MetricAlarmCls attrs) /\
    attrs !! "comparison" = Some (VStr wire) /\
    MetricAlarm._cmp_map !! op = Some wire /\
    wire ∈ MetricAlarm.wire_operators /\
    dict_getitem MetricAlarm._rev_cmp_map (VStr wire) h' = (Ok (VStr op), h').
Proof.
  intros [wire Hin]%symbolic_in_table Hop Hacc.
  destruct (create_accepted E kw h Hacc)
    as (self & t & c & p & e & l1 & l2 & aa & h' & Hrun & _ & Hc & _).
  rewrite Hop, dict_get_str in Hc.
  pose proof Hin as Hcmp%cmp_map_Some. pose proof Hin as Hrev%rev_cmp_map_Some.
  rewrite Hcmp in Hc. injection Hc as <-.
  eexists self, _, _, wire. split_and!.
  - exact Hrun.
  - apply lookup_insert_eq.
  - apply init_attrs_comparison.
  - done.
  - by eapply cmp_table_wire.
  - unfold dict_getitem. erewrite bind_Ok; [|reflexivity]. by rewrite Hrev.
Qed.

(** C5: with a string that is none of the four symbolic operators the
    constructor raises nothing and the comparison is left as [None]. *)
Theorem unknown_comparison_unset kw (h : heap) s :
  s ∉ MetricAlarm.symbolic_operators ->
  MetricAlarm.comparison kw = VStr s ->
  MetricAlarm.accepted E kw ->
  exists self h' attrs,
    MetricAlarm.create E kw h = (Ok self, h') /\
    h' !! self = Some (OInst MetricAlarmCls attrs) /\
    attrs !! "comparison" = Some VNone.
Proof.
  intros Hs Hop Hacc.
  destruct (create_accepted E kw h Hacc)
    as (self & t & c & p & e & l1 & l2 & aa & h' & Hrun & _ & Hc & _).
  rewrite Hop, dict_get_str in Hc.
  destruct (MetricAlarm._cmp_map !! s) as [w|] eqn:Hw.
  { apply cmp_map_Some, cmp_table_symbolic in Hw. by destruct Hs. }
  injection Hc as <-.
  eexists self, _, _. split_and!.
  - exact Hrun.
  - apply lookup_insert_eq.
  - apply init_attrs_comparison.
Qed.
End Comparison.

Lemma kw_comparison_accepted s :
  MetricAlarm.accepted Example.env (kw_comparison (VStr s)).
Proof.
  unfold MetricAlarm.accepted. simpl. split_and!.
  - intros _. eexists. vm_compute. reflexivity.
  - discriminate.
  - intros _. eexists. vm_compute. reflexivity.
  - intros _. eexists. vm_compute. reflexivity.
  - intros []. reflexivity.
Defined.

Lemma comparison_round_trip_witness :
  exists self h' attrs wire,
    MetricAlarm.create Example.env (kw_comparison (VStr ">=")) ∅ = (Ok self, h') /\
    h' !! self = Some (OInst MetricAlarmCls attrs) /\
    attrs !! "comparison" = Some (VStr wire) /\
    MetricAlarm._cmp_map !! ">=" = Some wire /\
    wire ∈ MetricAlarm.wire_operators /\
    dict_getitem MetricAlarm._rev_cmp_map (VStr wire) h' = (Ok (VStr ">="), h').
Proof.
  apply (comparison_round_trip Example.env (kw_comparison (VStr ">=")) ∅ ">=").
  - apply list_elem_of_here.
  - reflexivity.
  - apply kw_comparison_accepted.
Defined.

Lemma unknown_comparison_unset_witness :
  exists self h' attrs,
    MetricAlarm.create Example.env (kw_comparison (VStr "==")) ∅ = (Ok self, h') /\
    h' !! self = Some (OInst MetricAlarmCls attrs) /\
    attrs !! "comparison" = Some VNone.
Proof.
  apply (unknown_comparison_unset Example.env (kw_comparison (VStr "==")) ∅ "==").
  - unfold MetricAlarm.symbolic_operators. intros Hin.
    repeat (apply elem_of_cons in Hin as [Hin|Hin]; [discriminate Hin|]).
    by apply elem_of_nil in Hin.
  - reflexivity.
  - apply kw_comparison_accepted.
Defined.

(** ** MetricAlarm.endElement *)

Lemma dict_getitem_str d s h :
  dict_getitem d (VStr s) h =
    (match d !! s with Some w => Ok (VStr w) | None => Raise KeyError end, h).
Proof.
  unfold dict_getitem. erewrite bind_Ok; [|reflexivity]. by destruct (d !! s).
Qed.

Lemma getattr_or_class {A} l c attrs n (found : val -> M A) of_class (h : heap) :
  h !! l = Some (OInst c attrs) -> attrs !! n = None ->
  getattr_or (VRef l) n found of_class h = of_class h.
Proof. intros Hl Hn. unfold getattr_or. by rewrite Hl, Hn. Qed.

Lemma py_setattr_plain E o name :
  name ∉ ["__class__"; "__weakref__"; "__dict__"] ->
  py_setattr E o name = setattr o name.
Proof.
  intros Hn. unfold py_setattr.
  repeat (case_decide; [exfalso; apply Hn; subst name;
                        rewrite !elem_of_cons; auto|]).
  done.
Qed.

Lemma comparison_plain :
  "comparison" ∉ ["__class__"; "__weakref__"; "__dict__"].
Proof. rewrite !elem_of_cons, elem_of_nil. intros [|[|[|]]]; done. Qed.

Section EndElement.
Variable E : Env.

Lemma endElement_ComparisonOperator_str self c attrs s conn h :
  h !! self = Some (OInst c attrs) ->
  attrs !! "_rev_cmp_map" = None ->
  MetricAlarm.endElement E self "ComparisonOperator" (VStr s) conn h =
    match MetricAlarm._rev_cmp_map !! s with
    | Some op =>
        (Ok VNone, <[self := OInst c (<["comparison" := VStr op]> attrs)]> h)
    | None => (Raise KeyError, h)
    end.
Proof.
  intros Hself Hmap. unfold MetricAlarm.endElement.
  repeat (case_decide; [discriminate|]). case_decide; [|done].
  rewrite (py_setattr_plain _ _ _ comparison_plain).
  destruct (MetricAlarm._rev_cmp_map !! s) as [op|] eqn:Hs.
  - erewrite bind_Ok; [reflexivity|].
    erewrite bind_Ok; [by apply setattr_inst|].
    erewrite getattr_or_class by done.
    by rewrite dict_getitem_str, Hs.
  - erewrite bind_Raise; [reflexivity|].
    erewrite bind_Raise; [reflexivity|].
    erewrite getattr_or_class by done.
    by rewrite dict_getitem_str, Hs.
Qed.

(** C6: on an alarm that has no attribute of its own called
    [_rev_cmp_map], so that [self._rev_cmp_map] is the map of the class,
    leaving a [ComparisonOperator] node whose text is one of the four wire
    forms stores the matching symbolic operator (['GreaterThanThreshold']
    gives ['>']); any other text raises [KeyError], which is not caught,
    and nothing is stored. *)
Theorem endElement_ComparisonOperator self c attrs conn (h : heap) :
  h !! self = Some (OInst c attrs) ->
  attrs !! "_rev_cmp_map" = None ->
  (forall wire, wire ∈ MetricAlarm.wire_operators ->
     exists op,
       MetricAlarm._cmp_map !! op = Some wire /\
       MetricAlarm.endElement E self "ComparisonOperator" (VStr wire) conn h =
         (Ok VNone,
          <[self := OInst c (<["comparison" := VStr op]> attrs)]> h)) /\
  MetricAlarm.endElement E self "ComparisonOperator"
      (VStr "GreaterThanThreshold") conn h =
    (Ok VNone, <[self := OInst c (<["comparison" := VStr ">"]> attrs)]> h) /\
  (forall s, s ∉ MetricAlarm.wire_operators ->
     MetricAlarm.endElement E self "ComparisonOperator" (VStr s) conn h =
       (Raise KeyError, h)).
Proof.
  intros Hself Hmap. split_and!.
  - intros wire [op Hin]%wire_in_table. exists op. split.
    + by apply cmp_map_Some.
    + rewrite (endElement_ComparisonOperator_str _ _ _ _ _ _ Hself Hmap).
      apply rev_cmp_map_Some in Hin. by rewrite Hin.
  - rewrite (endElement_ComparisonOperator_str _ _ _ _ _ _ Hself Hmap).
    assert (MetricAlarm._rev_cmp_map !! "GreaterThanThreshold" = Some ">")
      as -> by (apply rev_cmp_map_Some; unfold cmp_table;
                rewrite !elem_of_cons; auto).
    done.
  - intros s Hs.
    rewrite (endElement_ComparisonOperator_str _ _ _ _ _ _ Hself Hmap).
    destruct (MetricAlarm._rev_cmp_map !! s) as [op|] eqn:Hop; [|done].
    apply rev_cmp_map_Some, cmp_table_wire in Hop. by destruct Hs.
Qed.





End EndElement.

(** ** The comparison field along a parse *)




Section Parse.
Variable E : Env.




End Parse.


Lemma defaults_accepted E : MetricAlarm.accepted E MetricAlarm.defaults.
Proof.
  unfold MetricAlarm.accepted, MetricAlarm.defaults. cbn.
  split_and!; try (intros []; reflexivity). discriminate.
Qed.


(** ** Entering an action list *)

Section ActionLists.
Variable E : Env.

(** C8: entering [AlarmActions] makes a new empty [ListElement], stores
    it as [alarm_actions] and returns that very object; the object did
    not exist before the call, so it differs from whatever sequence
    [alarm_actions] held, which stays as it was.  A node that is none of
    the three action lists gives no nested context and changes nothing. *)
Theorem startElement_AlarmActions self c attrs a conn (h : heap) :
  h !! self = Some (OInst c attrs) ->
  (exists l h' attrs',
     MetricAlarm.startElement E self "AlarmActions" a conn h
       = (Ok (VRef l), h') /\
     h !! l = None /\
     h' !! l = Some (OList ListElementCls []) /\
     h' !! self = Some (OInst c attrs') /\
     attrs' !! "alarm_actions" = Some (VRef l) /\
     (forall n, n <> "alarm_actions" -> attrs' !! n = attrs !! n) /\
     (forall l0 o, attrs !! "alarm_actions" = Some (VRef l0) ->
        h !! l0 = Some o -> l0 <> l /\ (l0 <> self -> h' !! l0 = Some o))) /\
  (forall name,
     name ∉ ["AlarmActions"; "InsufficientDataActions"; "OKActions"] ->
     MetricAlarm.startElement E self name a conn h = (Ok VNone, h)).
Proof.
  intros Hself. split.
  - exists (fresh (dom h)). eexists _, _. split_and!.
    + apply (startElement_install E self c attrs _ "alarm_actions");
        [done|apply list_elem_of_here].
    + apply fresh_None.
    + rewrite lookup_insert_ne by (apply fresh_ne; eauto).
      apply lookup_insert_eq.
    + apply lookup_insert_eq.
    + apply lookup_insert_eq.
    + intros n Hn. by rewrite lookup_insert_ne.
    + intros l0 o _ Hl0.
      assert (l0 <> fresh (dom h)) by (apply fresh_ne; eauto).
      split; [done|]. intros ?. by rewrite !lookup_insert_ne.
  - intros name Hname. apply startElement_other; intros ->; apply Hname;
      rewrite !elem_of_cons; auto.
Qed.
End ActionLists.

Lemma startElement_AlarmActions_witness :
  (exists l h' attrs',
     MetricAlarm.startElement Example.env 1%positive "AlarmActions" VNone VNone
       parsed_store = (Ok (VRef l), h') /\
     parsed_store !! l = None /\
     h' !! l = Some (OList ListElementCls []) /\
     h' !! 1%positive = Some (OInst MetricAlarmCls attrs') /\
     attrs' !! "alarm_actions" = Some (VRef l) /\
     (forall n, n <> "alarm_actions" ->
        attrs' !! n = (<["alarm_actions" := VRef 2%positive]>
                         (<["name" := VStr "cpu-high"]> ∅) : gmap string val) !! n) /\
     (forall l0 o,
        (<["alarm_actions" := VRef 2%positive]>
           (<["name" := VStr "cpu-high"]> ∅) : gmap string val)
          !! "alarm_actions" = Some (VRef l0) ->
        parsed_store !! l0 = Some o ->
        l0 <> l /\ (l0 <> 1%positive -> h' !! l0 = Some o))) /\
  (forall name,
     name ∉ ["AlarmActions"; "InsufficientDataActions"; "OKActions"] ->
     MetricAlarm.startElement Example.env 1%positive name VNone VNone parsed_store
       = (Ok VNone, parsed_store)).
Proof.
  apply (startElement_AlarmActions Example.env 1%positive MetricAlarmCls
           _ VNone VNone parsed_store).
  reflexivity.
Defined.

(** ** Adding actions *)

Lemma truthy_str s (h : heap) : s <> "" -> truthy (VStr s) h = (Ok true, h).
Proof.
  intros Hs. unfold truthy. destruct (String.eqb s "") eqn:He; [|done].
  by apply String.eqb_eq in He.
Qed.

Section AddAction.

Lemma add_alarm_action_falsy self v (h : heap) :
  truthy v h = (Ok false, h) ->
  MetricAlarm.add_alarm_action self v h = (Ok VNone, h).
Proof.
  intros Hv. unfold MetricAlarm.add_alarm_action.
  by erewrite bind_Ok by exact Hv.
Qed.

Lemma add_alarm_action_appends self c attrs l cls items v (h : heap) :
  h !! self = Some (OInst c attrs) ->
  attrs !! "alarm_actions" = Some (VRef l) ->
  h !! l = Some (OList cls items) ->
  truthy v h = (Ok true, h) ->
  MetricAlarm.add_alarm_action self v h =
    (Ok VNone,
     <[l := OList cls (items ++ [v])]>
       (<[self := OInst c (<["actions_enabled" := VStr "true"]> attrs)]> h)).
Proof.
  intros Hself Ha Hl Hv. unfold MetricAlarm.add_alarm_action.
  assert (l <> self) by congruence.
  erewrite bind_Ok by exact Hv. simpl.
  erewrite bind_Ok by (by apply setattr_inst).
  erewrite bind_Ok;
    [|erewrite getattr_inst by apply lookup_insert_eq;
      by rewrite lookup_insert_ne, Ha].
  erewrite bind_Ok; [done|].
  apply append_list. by rewrite lookup_insert_ne.
Qed.

Lemma add_insufficient_data_action_appends self c attrs l cls items v
    (h : heap) :
  h !! self = Some (OInst c attrs) ->
  attrs !! "insufficient_data_actions" = Some (VRef l) ->
  h !! l = Some (OList cls items) ->
  truthy v h = (Ok true, h) ->
  MetricAlarm.add_insufficient_data_action self v h =
    (Ok VNone,
     <[l := OList cls (items ++ [v])]>
       (<[self := OInst c (<["actions_enabled" := VStr "true"]> attrs)]> h)).
Proof.
  intros Hself Ha Hl Hv. unfold MetricAlarm.add_insufficient_data_action.
  assert (l <> self) by congruence.
  erewrite bind_Ok by exact Hv. simpl.
  erewrite bind_Ok by (by apply setattr_inst).
  erewrite bind_Ok;
    [|erewrite getattr_inst by apply lookup_insert_eq;
      by rewrite lookup_insert_ne, Ha].
  erewrite bind_Ok; [done|].
  apply append_list. by rewrite lookup_insert_ne.
Qed.

Lemma add_ok_action_appends self c attrs l cls items v (h : heap) :
  h !! self = Some (OInst c attrs) ->
  attrs !! "ok_actions" = Some (VRef l) ->
  h !! l = Some (OList cls items) ->
  truthy v h = (Ok true, h) ->
  MetricAlarm.add_ok_action self v h =
    (Ok VNone,
     <[l := OList cls (items ++ [v])]>
       (<[self := OInst c (<["actions_enabled" := VStr "true"]> attrs)]> h)).
Proof.
  intros Hself Ha Hl Hv. unfold MetricAlarm.add_ok_action.
  assert (l <> self) by congruence.
  erewrite bind_Ok by exact Hv. simpl.
  erewrite bind_Ok by (by apply setattr_inst).
  erewrite bind_Ok;
    [|erewrite getattr_inst by apply lookup_insert_eq;
      by rewrite lookup_insert_ne, Ha].
  erewrite bind_Ok; [done|].
  apply append_list. by rewrite lookup_insert_ne.
Qed.

(** With [alarm_actions] still [None] the flag is set first and the
    [append] then finds no such method. *)
Lemma add_alarm_action_unset self c attrs v (h : heap) :
  h !! self = Some (OInst c attrs) ->
  attrs !! "alarm_actions" = Some VNone ->
  truthy v h = (Ok true, h) ->
  MetricAlarm.add_alarm_action self v h =
    (Raise AttributeError,
     <[self := OInst c (<["actions_enabled" := VStr "true"]> attrs)]> h).
Proof.
  intros Hself Ha Hv. unfold MetricAlarm.add_alarm_action.
  erewrite bind_Ok by exact Hv. simpl.
  erewrite bind_Ok by (by apply setattr_inst).
  erewrite bind_Ok;
    [|erewrite getattr_inst by apply lookup_insert_eq;
      by rewrite lookup_insert_ne, Ha].
  by erewrite bind_Raise.
Qed.
End AddAction.

Lemma init_attrs_lists kw a0 t c p e ida oka aa :
  MetricAlarm.init_attrs kw a0 t c p e ida oka aa
    !! "insufficient_data_actions" = Some ida /\
  MetricAlarm.init_attrs kw a0 t c p e ida oka aa !! "ok_actions" = Some oka /\
  MetricAlarm.init_attrs kw a0 t c p e ida oka aa !! "alarm_actions" = Some aa.
Proof. unfold MetricAlarm.init_attrs. by simplify_map_eq. Qed.

Section FreshAlarm.
Variable E : Env.

(** C10: an alarm made without an initial action has two new, distinct,
    empty lists as [insufficient_data_actions] and [ok_actions], so a
    non-empty ARN is appended to either; its [alarm_actions] is [None],
    so [add_alarm_action] with a non-empty ARN raises [AttributeError]
    and appends nothing. *)
Theorem alarm_without_action kw (h : heap) arn :
  MetricAlarm.accepted E kw ->
  MetricAlarm.alarm_action kw = VNone ->
  arn <> "" ->
  exists self h1 attrs l1 l2,
    MetricAlarm.create E kw h = (Ok self, h1) /\
    h1 !! self = Some (OInst MetricAlarmCls attrs) /\
    attrs !! "insufficient_data_actions" = Some (VRef l1) /\
    attrs !! "ok_actions" = Some (VRef l2) /\
    attrs !! "alarm_actions" = Some VNone /\
    h1 !! l1 = Some (OList ListCls []) /\
    h1 !! l2 = Some (OList ListCls []) /\
    l1 <> l2 /\ h !! l1 = None /\ h !! l2 = None /\
    (exists h2,
       MetricAlarm.add_insufficient_data_action self (VStr arn) h1
         = (Ok VNone, h2) /\
       h2 !! l1 = Some (OList ListCls [VStr arn])) /\
    (exists h2,
       MetricAlarm.add_ok_action self (VStr arn) h1 = (Ok VNone, h2) /\
       h2 !! l2 = Some (OList ListCls [VStr arn])) /\
    (exists h2,
       MetricAlarm.add_alarm_action self (VStr arn) h1
         = (Raise AttributeError, h2) /\
       h2 !! l1 = Some (OList ListCls []) /\
       h2 !! l2 = Some (OList ListCls [])).
Proof.
  intros Hacc Hnone Harn.
  destruct (create_accepted E kw h Hacc)
    as (self & t & c & p & e & l1 & l2 & aa & h' & Hrun & _ & _ & Hs1 & Hs2
        & H12 & Hf1 & Hf2 & Hl1 & Hl2 & Haa & _).
  rewrite (Haa Hnone) in Hrun.
  destruct (init_attrs_lists kw ∅ t c p e (VRef l1) (VRef l2) VNone)
    as (Hida & Hoka & Hnil).
  eexists self, _, _, l1, l2. split_and!.
  - exact Hrun.
  - apply lookup_insert_eq.
  - exact Hida.
  - exact Hoka.
  - exact Hnil.
  - by rewrite lookup_insert_ne.
  - by rewrite lookup_insert_ne.
  - done.
  - done.
  - done.
  - eexists. split.
    + eapply add_insufficient_data_action_appends;
        [apply lookup_insert_eq|exact Hida|by rewrite lookup_insert_ne
        |by apply truthy_str].
    + apply lookup_insert_eq.
  - eexists. split.
    + eapply add_ok_action_appends;
        [apply lookup_insert_eq|exact Hoka|by rewrite lookup_insert_ne
        |by apply truthy_str].
    + apply lookup_insert_eq.
  - eexists. split_and!.
    + eapply add_alarm_action_unset;
        [apply lookup_insert_eq|exact Hnil|by apply truthy_str].
    + by rewrite !lookup_insert_ne.
    + by rewrite !lookup_insert_ne.
Qed.
End FreshAlarm.

Lemma alarm_without_action_witness :
  exists self h1 attrs l1 l2,
    MetricAlarm.create Example.env (kw_comparison (VStr ">")) ∅ = (Ok self, h1) /\
    h1 !! self = Some (OInst MetricAlarmCls attrs) /\
    attrs !! "insufficient_data_actions" = Some (VRef l1) /\
    attrs !! "ok_actions" = Some (VRef l2) /\
    attrs !! "alarm_actions" = Some VNone /\
    h1 !! l1 = Some (OList ListCls []) /\
    h1 !! l2 = Some (OList ListCls []) /\
    l1 <> l2 /\ (∅ : heap) !! l1 = None /\ (∅ : heap) !! l2 = None /\
    (exists h2,
       MetricAlarm.add_insufficient_data_action self (VStr "arn:aws:sns:x") h1
         = (Ok VNone, h2) /\
       h2 !! l1 = Some (OList ListCls [VStr "arn:aws:sns:x"])) /\
    (exists h2,
       MetricAlarm.add_ok_action self (VStr "arn:aws:sns:x") h1 = (Ok VNone, h2) /\
       h2 !! l2 = Some (OList ListCls [VStr "arn:aws:sns:x"])) /\
    (exists h2,
       MetricAlarm.add_alarm_action self (VStr "arn:aws:sns:x") h1
         = (Raise AttributeError, h2) /\
       h2 !! l1 = Some (OList ListCls []) /\
       h2 !! l2 = Some (OList ListCls [])).
Proof.
  apply (alarm_without_action Example.env (kw_comparison (VStr ">")) ∅
           "arn:aws:sns:x").
  - apply kw_comparison_accepted.
  - reflexivity.
  - discriminate.
Defined.

(** C7: on a new alarm, made without an initial action, the call
    [add_alarm_action('arn:...')] does not append: it sets
    [actions_enabled] to ['true'] and then raises [AttributeError],
    because [alarm_actions] is [None].  The empty string and [None] are
    ignored, as the claim says. *)
Theorem add_alarm_action_on_new_alarm :
  exists self h1 h2 attrs,
    Example.run (MetricAlarm.create Example.env MetricAlarm.defaults)
      = (Ok self, h1) /\
    MetricAlarm.add_alarm_action self
        (VStr "arn:aws:sns:us-east-1:123456789012:ops") h1
      = (Raise AttributeError, h2) /\
    h2 !! self = Some (OInst MetricAlarmCls attrs) /\
    attrs !! "alarm_actions" = Some VNone /\
    attrs !! "actions_enabled" = Some (VStr "true") /\
    MetricAlarm.add_alarm_action self (VStr "") h1 = (Ok VNone, h1) /\
    MetricAlarm.add_alarm_action self VNone h1 = (Ok VNone, h1).
Proof.
  destruct (create_accepted Example.env MetricAlarm.defaults ∅
              (defaults_accepted _))
    as (self & t & c & p & e & l1 & l2 & aa & h' & Hrun & _ & _ & _ & _ & _
        & _ & _ & _ & _ & Haa & _).
  rewrite (Haa eq_refl) in Hrun.
  destruct (init_attrs_lists MetricAlarm.defaults ∅ t c p e (VRef l1)
              (VRef l2) VNone) as (_ & _ & Hnil).
  eexists self, _, _, _. split_and!.
  - exact Hrun.
  - eapply add_alarm_action_unset;
      [apply lookup_insert_eq|exact Hnil|by apply truthy_str].
  - apply lookup_insert_eq.
  - rewrite lookup_insert_ne by discriminate. exact Hnil.
  - apply lookup_insert_eq.
  - by apply add_alarm_action_falsy.
  - by apply add_alarm_action_falsy.
Qed.

(** ** Operations delegated to the connection *)

Section Delegation.
Variable E : Env.
Variables (self : loc) (c : inst_class) (attrs : gmap string val).
Variables (n : nat) (name : val) (h : heap).
Hypothesis Hself : h !! self = Some (OInst c attrs).
Hypothesis Hconn : attrs !! "connection" = Some (VConn n).
Hypothesis Hname : attrs !! "name" = Some name.

Local Ltac prelude :=
  erewrite bind_Ok by (by erewrite getattr_inst, Hconn by exact Hself);
  erewrite bind_Ok by reflexivity.

Local Ltac with_name :=
  prelude;
  erewrite bind_Ok by (by erewrite getattr_inst, Hname by exact Hself).

Lemma set_state_delegates value reason data :
  MetricAlarm.set_state E self value reason data h =
    set_alarm_state (connections E n) name reason value data h.
Proof. unfold MetricAlarm.set_state. by with_name. Qed.

Lemma update_delegates :
  MetricAlarm.update E self h = update_alarm (connections E n) (VRef self) h.
Proof. unfold MetricAlarm.update. by prelude. Qed.

Lemma enable_actions_delegates :
  MetricAlarm.enable_actions E self h =
    enable_alarm_actions (connections E n) (VRef (fresh (dom h)))
      (<[fresh (dom h) := OList ListCls [name]]> h).
Proof.
  unfold MetricAlarm.enable_actions. with_name.
  by erewrite bind_Ok by reflexivity.
Qed.

Lemma disable_actions_delegates :
  MetricAlarm.disable_actions E self h =
    disable_alarm_actions (connections E n) (VRef (fresh (dom h)))
      (<[fresh (dom h) := OList ListCls [name]]> h).
Proof.
  unfold MetricAlarm.disable_actions. with_name.
  by erewrite bind_Ok by reflexivity.
Qed.

Lemma describe_history_delegates start_date end_date max_records
    history_item_type next_token :
  MetricAlarm.describe_history E self start_date end_date max_records
      history_item_type next_token h =
    describe_alarm_history (connections E n) name start_date end_date
      max_records history_item_type next_token h.
Proof. unfold MetricAlarm.describe_history. by with_name. Qed.

(** [delete] makes the same kind of call, on the list that holds the
    alarm, but answers [None] whatever the connection returned. *)
Lemma delete_discards :
  MetricAlarm.delete E self h =
    match delete_alarms (connections E n) (VRef (fresh (dom h)))
            (<[fresh (dom h) := OList ListCls [VRef self]]> h) with
    | (Ok _, h') => (Ok VNone, h')
    | (Raise e, h') => (Raise e, h')
    end.
Proof.
  unfold MetricAlarm.delete. prelude.
  erewrite bind_Ok by reflexivity. cbn [call].
  unfold mbind, M_bind, bind.
  by destruct (delete_alarms _ _ _) as [[?|?] ?].
Qed.
End Delegation.

Lemma init_attrs_connection kw a0 t c p e ida oka aa :
  MetricAlarm.init_attrs kw a0 t c p e ida oka aa !! "connection"
    = Some (MetricAlarm.connection kw).
Proof.
  unfold MetricAlarm.init_attrs.
  repeat (rewrite lookup_insert_ne by discriminate). apply lookup_insert_eq.
Qed.

Lemma init_attrs_name kw a0 t c p e ida oka aa :
  MetricAlarm.init_attrs kw a0 t c p e ida oka aa !! "name"
    = Some (MetricAlarm.name kw).
Proof.
  unfold MetricAlarm.init_attrs.
  repeat (rewrite lookup_insert_ne by discriminate). apply lookup_insert_eq.
Qed.

Lemma kw_connected_accepted : MetricAlarm.accepted Example.env kw_connected.
Proof.
  unfold MetricAlarm.accepted, kw_connected. cbn.
  split_and!; try (intros []; reflexivity). discriminate.
Qed.

(** C4: with a connection whose [delete_alarms] returns [True], [delete]
    returns [None], not [True]; [set_state], [update] and
    [enable_actions] on the same alarm return what the connection
    returned. *)
Theorem delete_returns_None :
  exists self h1 alarms h2,
    Example.run (MetricAlarm.create Example.env kw_connected) = (Ok self, h1) /\
    alloc (OList ListCls [VRef self]) h1 = (Ok alarms, h2) /\
    delete_alarms (connections Example.env 0) alarms h2 = (Ok (VBool true), h2) /\
    MetricAlarm.delete Example.env self h1 = (Ok VNone, h2) /\
    MetricAlarm.set_state Example.env self (VStr "OK") (VStr "test") VNone h1
      = (Ok (VBool true), h1) /\
    MetricAlarm.update Example.env self h1 = (Ok (VBool true), h1) /\
    fst (MetricAlarm.enable_actions Example.env self h1) = Ok (VBool true).
Proof.
  destruct (create_accepted Example.env kw_connected ∅ kw_connected_accepted)
    as (self & t & c & p & e & l1 & l2 & aa & h' & Hrun & _).
  pose proof (init_attrs_connection kw_connected ∅ t c p e (VRef l1)
                (VRef l2) aa) as Hconn.
  pose proof (init_attrs_name kw_connected ∅ t c p e (VRef l1) (VRef l2) aa)
    as Hname.
  eexists self, _, _, _. split_and!.
  - exact Hrun.
  - reflexivity.
  - reflexivity.
  - erewrite delete_discards;
      [reflexivity|apply lookup_insert_eq|exact Hconn].
  - erewrite set_state_delegates;
      [reflexivity|apply lookup_insert_eq|exact Hconn|exact Hname].
  - erewrite update_delegates;
      [reflexivity|apply lookup_insert_eq|exact Hconn].
  - erewrite enable_actions_delegates;
      [reflexivity|apply lookup_insert_eq|exact Hconn|exact Hname].
Qed.

(** ** AlarmHistoryItem.endElement *)

Section History.
Variable E : Env.

Lemma endElement_HistoryItemType self c attrs value conn (h : heap) :
  h !! self = Some (OInst c attrs) ->
  AlarmHistoryItem.endElement E self "HistoryItemType" value conn h =
    (Ok VNone, <[self := OInst c (<["tem_type" := value]> attrs)]> h).
Proof.
  intros Hself. unfold AlarmHistoryItem.endElement.
  repeat (case_decide; [discriminate|]). case_decide; [|done].
  by erewrite bind_Ok by (by apply setattr_inst).
Qed.

End History.


Lemma history_create connection (h : heap) :
  AlarmHistoryItem.create connection h =
    (Ok (fresh (dom h)),
     <[fresh (dom h) :=
         OInst AlarmHistoryItemCls (<["connection" := connection]> ∅)]> h).
Proof.
  unfold AlarmHistoryItem.create.
  erewrite bind_Ok by reflexivity. cbv beta iota.
  unfold AlarmHistoryItem.__init__.
  erewrite bind_Ok by apply setattr_top. reflexivity.
Qed.

(** C3: leaving a [HistoryItemType] node does not assign [item_type]: the
    text goes to an attribute called [tem_type] and the entry still has no
    [item_type]. *)
Theorem HistoryItemType_not_item_type :
  exists self h1 h2 attrs,
    Example.run (AlarmHistoryItem.create VNone) = (Ok self, h1) /\
    AlarmHistoryItem.endElement Example.env self "HistoryItemType"
        (VStr "StateUpdate") VNone h1 = (Ok VNone, h2) /\
    h2 !! self = Some (OInst AlarmHistoryItemCls attrs) /\
    attrs !! "item_type" = None /\
    attrs !! "tem_type" = Some (VStr "StateUpdate").
Proof.
  eexists (fresh (dom (∅ : heap))), _, _, _. split_and!.
  - apply history_create.
  - apply endElement_HistoryItemType. apply lookup_insert_eq.
  - apply lookup_insert_eq.
  - rewrite lookup_insert_ne by discriminate.
    rewrite lookup_insert_ne by discriminate. apply lookup_empty.
  - apply lookup_insert_eq.
Qed.

(** ** The matcher and the language of the format *)

Section Matcher.
Context {A : Type}.
Implicit Types (k : _strptime.groups -> list ascii -> option A).


End Matcher.
(** ** Characters and numbers *)


















(** ** The format as a whole *)










(** ** The numbers of the fields *)










(** ** What [strptime] accepts and what it returns *)




(** ** The text that writes a date-time *)






Section Timestamp.
Variable E : Env.

End Timestamp.


Lemma endElement_ComparisonOperator_witness :
  (forall wire, wire ∈ MetricAlarm.wire_operators ->
     exists op,
       MetricAlarm._cmp_map !! op = Some wire /\
       MetricAlarm.endElement Example.env 1%positive "ComparisonOperator"
           (VStr wire) VNone parsed_store =
         (Ok VNone,
          <[1%positive := OInst MetricAlarmCls
              (<["comparison" := VStr op]>
                 (<["alarm_actions" := VRef 2%positive]>
                    (<["name" := VStr "cpu-high"]> ∅)))]> parsed_store)) /\
  MetricAlarm.endElement Example.env 1%positive "ComparisonOperator"
      (VStr "GreaterThanThreshold") VNone parsed_store =
    (Ok VNone,
     <[1%positive := OInst MetricAlarmCls
         (<["comparison" := VStr ">"]>
            (<["alarm_actions" := VRef 2%positive]>
               (<["name" := VStr "cpu-high"]> ∅)))]> parsed_store) /\
  (forall s, s ∉ MetricAlarm.wire_operators ->
     MetricAlarm.endElement Example.env 1%positive "ComparisonOperator"
         (VStr s) VNone parsed_store =
       (Raise KeyError, parsed_store)).
Proof.
  apply (endElement_ComparisonOperator Example.env 1%positive MetricAlarmCls
           _ VNone parsed_store); reflexivity.
Defined.

(** * Further properties of the module *)

(** ** The two comparison maps *)

(** X1: [_rev_cmp_map] is the inverse of [_cmp_map]: a wire form is sent
    to an operator exactly when the operator is sent to that wire form.
    So both maps are one-to-one and have four entries each. *)
Theorem rev_cmp_map_inverse wire op :
  MetricAlarm._rev_cmp_map !! wire = Some op <->
  MetricAlarm._cmp_map !! op = Some wire.
Proof. by rewrite rev_cmp_map_Some, cmp_map_Some. Qed.

(** ** Falsy arguments of the three [add_..._action] methods *)

(** X2: each of [add_alarm_action], [add_insufficient_data_action] and
    [add_ok_action] returns at once when its argument is falsy ([None], the
    empty string, [False], zero, an empty list): nothing is raised and
    nothing in the store changes.  This holds whatever [self] is, also for
    an alarm whose [alarm_actions] is still [None]. *)
Theorem add_action_ignores_falsy self v (h : heap) :
  truthy v h = (Ok false, h) ->
  MetricAlarm.add_alarm_action self v h = (Ok VNone, h) /\
  MetricAlarm.add_insufficient_data_action self v h = (Ok VNone, h) /\
  MetricAlarm.add_ok_action self v h = (Ok VNone, h).
Proof.
  intros Hv.
  unfold MetricAlarm.add_alarm_action, MetricAlarm.add_insufficient_data_action,
    MetricAlarm.add_ok_action.
  split_and!; by erewrite bind_Ok by exact Hv.
Qed.

Lemma add_action_ignores_falsy_witness :
  MetricAlarm.add_alarm_action 1%positive (VStr "") parsed_store
    = (Ok VNone, parsed_store) /\
  MetricAlarm.add_insufficient_data_action 1%positive (VStr "") parsed_store
    = (Ok VNone, parsed_store) /\
  MetricAlarm.add_ok_action 1%positive (VStr "") parsed_store
    = (Ok VNone, parsed_store).
Proof.
  apply (add_action_ignores_falsy 1%positive (VStr "") parsed_store).
  reflexivity.
Defined.

(** ** The operations that go through the connection *)

(** X3: on an alarm that has a connection, [set_state], [update],
    [enable_actions], [disable_actions] and [describe_history] are exactly
    the call of the connection's method: same result, same exception, same
    effect on the store.  [set_state(value, reason, data)] passes the
    alarm's name, then [reason] before [value]; [update] passes the alarm
    itself; the two switches pass a new one-element list holding the
    name. *)
Theorem delegated_operations E self c attrs n name (h : heap) :
  h !! self = Some (OInst c attrs) ->
  attrs !! "connection" = Some (VConn n) ->
  attrs !! "name" = Some name ->
  (forall value reason data,
     MetricAlarm.set_state E self value reason data h =
       set_alarm_state (connections E n) name reason value data h) /\
  MetricAlarm.update E self h = update_alarm (connections E n) (VRef self) h /\
  MetricAlarm.enable_actions E self h =
    enable_alarm_actions (connections E n) (VRef (fresh (dom h)))
      (<[fresh (dom h) := OList ListCls [name]]> h) /\
  MetricAlarm.disable_actions E self h =
    disable_alarm_actions (connections E n) (VRef (fresh (dom h)))
      (<[fresh (dom h) := OList ListCls [name]]> h) /\
  (forall start_date end_date max_records history_item_type next_token,
     MetricAlarm.describe_history E self start_date end_date max_records
         history_item_type next_token h =
       describe_alarm_history (connections E n) name start_date end_date
         max_records history_item_type next_token h).
Proof.
  intros Hself Hconn Hname. split_and!; intros.
  - by eapply set_state_delegates.
  - by eapply update_delegates.
  - by eapply enable_actions_delegates.
  - by eapply disable_actions_delegates.
  - by eapply describe_history_delegates.
Qed.

Lemma delegated_operations_witness :
  (forall value reason data,
     MetricAlarm.set_state Example.env 1%positive value reason data
         connected_store =
       set_alarm_state (connections Example.env 0) (VStr "cpu-high") reason
         value data connected_store) /\
  MetricAlarm.update Example.env 1%positive connected_store =
    update_alarm (connections Example.env 0) (VRef 1%positive) connected_store /\
  MetricAlarm.enable_actions Example.env 1%positive connected_store =
    enable_alarm_actions (connections Example.env 0)
      (VRef (fresh (dom connected_store)))
      (<[fresh (dom connected_store) := OList ListCls [VStr "cpu-high"]]>
         connected_store) /\
  MetricAlarm.disable_actions Example.env 1%positive connected_store =
    disable_alarm_actions (connections Example.env 0)
      (VRef (fresh (dom connected_store)))
      (<[fresh (dom connected_store) := OList ListCls [VStr "cpu-high"]]>
         connected_store) /\
  (forall start_date end_date max_records history_item_type next_token,
     MetricAlarm.describe_history Example.env 1%positive start_date end_date
         max_records history_item_type next_token connected_store =
       describe_alarm_history (connections Example.env 0) (VStr "cpu-high")
         start_date end_date max_records history_item_type next_token
         connected_store).
Proof.
  apply (delegated_operations Example.env 1%positive MetricAlarmCls
           (<["connection" := VConn 0]> (<["name" := VStr "cpu-high"]> ∅))
           0 (VStr "cpu-high") connected_store); reflexivity.
Defined.

Lemma method_of_lacks E v m (h : heap) :
  lacks_methods v h -> m ∈ connection_methods ->
  method_of E v m h = (Raise AttributeError, h).
Proof.
  intros Hv Hm. destruct v as [| | | | | | |l]; try done.
  unfold method_of. cbn [lacks_methods] in Hv.
  destruct (h !! l) as [[? attrs'|?|?]|]; try done.
  by rewrite (Hv m Hm).
Qed.

(** X4: on an alarm whose [connection] is [None] (the default), a number,
    a string, a date, a list, a dictionary, or an instance that carries no
    attribute named like one of the six methods of a connection, all six
    operations raise [AttributeError] before anything else happens: the
    store is unchanged, no list is made. *)
Theorem operations_without_connection E self c attrs v (h : heap) :
  h !! self = Some (OInst c attrs) ->
  attrs !! "connection" = Some v ->
  lacks_methods v h ->
  (forall value reason data,
     MetricAlarm.set_state E self value reason data h
       = (Raise AttributeError, h)) /\
  MetricAlarm.update E self h = (Raise AttributeError, h) /\
  MetricAlarm.enable_actions E self h = (Raise AttributeError, h) /\
  MetricAlarm.disable_actions E self h = (Raise AttributeError, h) /\
  (forall start_date end_date max_records history_item_type next_token,
     MetricAlarm.describe_history E self start_date end_date max_records
         history_item_type next_token h = (Raise AttributeError, h)) /\
  MetricAlarm.delete E self h = (Raise AttributeError, h).
Proof.
  intros Hself Hconn Hv.
  unfold MetricAlarm.set_state, MetricAlarm.update, MetricAlarm.enable_actions,
    MetricAlarm.disable_actions, MetricAlarm.describe_history,
    MetricAlarm.delete.
  split_and!; intros;
    (erewrite bind_Ok by (by erewrite getattr_inst, Hconn by exact Hself));
    (erewrite bind_Raise; [reflexivity|]);
    (apply method_of_lacks; [exact Hv|]);
    unfold connection_methods; rewrite !elem_of_cons; auto 10.
Qed.

Lemma operations_without_connection_witness :
  (forall value reason data,
     MetricAlarm.set_state Example.env 1%positive value reason data
         unconnected_store = (Raise AttributeError, unconnected_store)) /\
  MetricAlarm.update Example.env 1%positive unconnected_store
    = (Raise AttributeError, unconnected_store) /\
  MetricAlarm.enable_actions Example.env 1%positive unconnected_store
    = (Raise AttributeError, unconnected_store) /\
  MetricAlarm.disable_actions Example.env 1%positive unconnected_store
    = (Raise AttributeError, unconnected_store) /\
  (forall start_date end_date max_records history_item_type next_token,
     MetricAlarm.describe_history Example.env 1%positive start_date end_date
         max_records history_item_type next_token unconnected_store
       = (Raise AttributeError, unconnected_store)) /\
  MetricAlarm.delete Example.env 1%positive unconnected_store
    = (Raise AttributeError, unconnected_store).
Proof.
  apply (operations_without_connection Example.env 1%positive MetricAlarmCls
           (<["connection" := VNone]> (<["name" := VStr "cpu-high"]> ∅))
           VNone unconnected_store); [reflexivity|reflexivity|exact I].
Defined.

(** ** The three action lists of a parse *)

(** X5: entering [AlarmActions], [InsufficientDataActions] or [OKActions]
    replaces exactly one attribute ([alarm_actions],
    [insufficient_data_actions], [ok_actions]) by a new empty
    [ListElement] and returns it.  Every other attribute and every other
    object of the store stays as it was: the list held before is not
    emptied, it is only no longer the alarm's. *)
Theorem startElement_containers E self c attrs name field a conn (h : heap) :
  h !! self = Some (OInst c attrs) ->
  (name, field) ∈ [("AlarmActions", "alarm_actions");
                   ("InsufficientDataActions", "insufficient_data_actions");
                   ("OKActions", "ok_actions")] ->
  exists l h',
    MetricAlarm.startElement E self name a conn h = (Ok (VRef l), h') /\
    h !! l = None /\
    h' !! l = Some (OList ListElementCls []) /\
    h' !! self = Some (OInst c (<[field := VRef l]> attrs)) /\
    (forall l', l' <> self -> l' <> l -> h' !! l' = h !! l').
Proof.
  intros Hself Hin. exists (fresh (dom h)). eexists. split_and!.
  - by apply startElement_install.
  - apply fresh_None.
  - rewrite lookup_insert_ne by (apply fresh_ne; eauto).
    apply lookup_insert_eq.
  - apply lookup_insert_eq.
  - intros l' H1 H2. by rewrite !lookup_insert_ne.
Qed.

Lemma startElement_containers_witness :
  exists l h',
    MetricAlarm.startElement Example.env 1%positive "OKActions" VNone VNone
      parsed_store = (Ok (VRef l), h') /\
    parsed_store !! l = None /\
    h' !! l = Some (OList ListElementCls []) /\
    h' !! 1%positive =
      Some (OInst MetricAlarmCls
              (<["ok_actions" := VRef l]>
                 (<["alarm_actions" := VRef 2%positive]>
                    (<["name" := VStr "cpu-high"]> ∅)))) /\
    (forall l', l' <> 1%positive -> l' <> l -> h' !! l' = parsed_store !! l').
Proof.
  apply (startElement_containers Example.env 1%positive MetricAlarmCls
           _ "OKActions" "ok_actions" VNone VNone parsed_store).
  - reflexivity.
  - apply list_elem_of_further, list_elem_of_further, list_elem_of_here.
Defined.

(** X6: once a parse has entered [AlarmActions], [add_alarm_action] with a
    non-empty ARN succeeds on that alarm, whatever [alarm_actions] held
    before (also [None], or no such attribute): the new list then holds
    exactly the ARN and [actions_enabled] is ['true']. *)
Theorem add_alarm_action_after_parse E self c attrs a conn (h : heap) arn :
  h !! self = Some (OInst c attrs) ->
  arn <> "" ->
  exists l h1 h2 attrs',
    MetricAlarm.startElement E self "AlarmActions" a conn h
      = (Ok (VRef l), h1) /\
    MetricAlarm.add_alarm_action self (VStr arn) h1 = (Ok VNone, h2) /\
    h2 !! l = Some (OList ListElementCls [VStr arn]) /\
    h2 !! self = Some (OInst c attrs') /\
    attrs' !! "alarm_actions" = Some (VRef l) /\
    attrs' !! "actions_enabled" = Some (VStr "true").
Proof.
  intros Hself Harn.
  assert (Hne : self <> fresh (dom h)) by (apply fresh_ne; eauto).
  exists (fresh (dom h)). eexists _, _, _. split_and!.
  - apply (startElement_install E self c attrs _ "alarm_actions");
      [done|apply list_elem_of_here].
  - eapply add_alarm_action_appends.
    + apply lookup_insert_eq.
    + apply lookup_insert_eq.
    + rewrite lookup_insert_ne by done. apply lookup_insert_eq.
    + by apply truthy_str.
  - apply lookup_insert_eq.
  - rewrite lookup_insert_ne by done. apply lookup_insert_eq.
  - rewrite lookup_insert_ne by done. apply lookup_insert_eq.
  - apply lookup_insert_eq.
Qed.

Lemma add_alarm_action_after_parse_witness :
  exists l h1 h2 attrs',
    MetricAlarm.startElement Example.env 1%positive "AlarmActions" VNone VNone
      unconnected_store = (Ok (VRef l), h1) /\
    MetricAlarm.add_alarm_action 1%positive (VStr "arn:aws:sns:x") h1
      = (Ok VNone, h2) /\
    h2 !! l = Some (OList ListElementCls [VStr "arn:aws:sns:x"]) /\
    h2 !! 1%positive = Some (OInst MetricAlarmCls attrs') /\
    attrs' !! "alarm_actions" = Some (VRef l) /\
    attrs' !! "actions_enabled" = Some (VStr "true").
Proof.
  apply (add_alarm_action_after_parse Example.env 1%positive MetricAlarmCls
           (<["connection" := VNone]> (<["name" := VStr "cpu-high"]> ∅))
           VNone VNone unconnected_store "arn:aws:sns:x").
  - reflexivity.
  - discriminate.
Defined.

(** ** Adding several actions *)

Lemma adder_appends field add self c attrs l cls items v (h : heap) :
  (field, add) ∈ adders ->
  h !! self = Some (OInst c attrs) ->
  attrs !! field = Some (VRef l) ->
  h !! l = Some (OList cls items) ->
  truthy v h = (Ok true, h) ->
  add self v h =
    (Ok VNone,
     <[l := OList cls (items ++ [v])]>
       (<[self := OInst c (<["actions_enabled" := VStr "true"]> attrs)]> h)).
Proof.
  unfold adders. intros Hin.
  repeat (apply elem_of_cons in Hin as [[= -> ->]|Hin]).
  - apply add_alarm_action_appends.
  - apply add_insufficient_data_action_appends.
  - apply add_ok_action_appends.
  - by apply elem_of_nil in Hin.
Qed.

Lemma adder_field field add : (field, add) ∈ adders -> field <> "actions_enabled".
Proof.
  unfold adders. intros Hin.
  repeat (apply elem_of_cons in Hin as [[= -> ->]|Hin]); try done.
  by apply elem_of_nil in Hin.
Qed.

(** X7: ARNs added one after the other end up in the list in the order of
    the calls, after the items that were there; this holds for each of the
    three methods and its list.  The alarm changes in [actions_enabled]
    only, which becomes ['true'], and no other object is touched. *)
Theorem add_each_in_order field add arns self c attrs l cls items (h : heap) :
  (field, add) ∈ adders ->
  h !! self = Some (OInst c attrs) ->
  attrs !! field = Some (VRef l) ->
  h !! l = Some (OList cls items) ->
  Forall is_arn arns ->
  arns <> [] ->
  exists h',
    add_each (add self) arns h = (Ok tt, h') /\
    h' !! l = Some (OList cls (items ++ arns)) /\
    h' !! self =
      Some (OInst c (<["actions_enabled" := VStr "true"]> attrs)) /\
    (forall l', l' <> self -> l' <> l -> h' !! l' = h !! l').
Proof.
  intros Hin Hself Hfield Hl Harns Hne.
  assert (Hls : l <> self) by congruence.
  pose proof (adder_field _ _ Hin) as Hf.
  revert attrs items h Hself Hfield Hl Hne.
  induction Harns as [|v arns (s & -> & Hs) Harns IH];
    intros attrs items h Hself Hfield Hl Hne; [done|].
  pose proof (adder_appends _ _ _ _ _ _ _ _ (VStr s) _ Hin Hself Hfield Hl
                (truthy_str _ _ Hs)) as Hstep.
  cbn [add_each]. erewrite bind_Ok by exact Hstep.
  destruct arns as [|v' arns].
  - eexists. split_and!; [done|..].
    + apply lookup_insert_eq.
    + rewrite lookup_insert_ne by done. apply lookup_insert_eq.
    + intros l' H1 H2. by rewrite !lookup_insert_ne.
  - edestruct (IH (<["actions_enabled" := VStr "true"]> attrs)
                 (items ++ [VStr s])%list
                 (<[l := OList cls (items ++ [VStr s])]>
                    (<[self := OInst c
                         (<["actions_enabled" := VStr "true"]> attrs)]> h)))
      as (h' & Hrun & Hl' & Hself' & Hframe).
    + rewrite lookup_insert_ne by done. apply lookup_insert_eq.
    + by rewrite lookup_insert_ne.
    + apply lookup_insert_eq.
    + done.
    + exists h'. split_and!; [exact Hrun|..].
      * by rewrite Hl', <- app_assoc.
      * by rewrite Hself', insert_insert_eq.
      * intros l' H1 H2. rewrite Hframe by done. by rewrite !lookup_insert_ne.
Qed.

Lemma add_each_in_order_witness :
  exists h',
    add_each (MetricAlarm.add_alarm_action 1%positive)
      [VStr "arn:aws:sns:a"; VStr "arn:aws:sns:b"] parsed_store = (Ok tt, h') /\
    h' !! 2%positive =
      Some (OList ListElementCls
              ([VStr "arn:aws:sns:us-east-1:1:old"]
               ++ [VStr "arn:aws:sns:a"; VStr "arn:aws:sns:b"])) /\
    h' !! 1%positive =
      Some (OInst MetricAlarmCls
              (<["actions_enabled" := VStr "true"]>
                 (<["alarm_actions" := VRef 2%positive]>
                    (<["name" := VStr "cpu-high"]> ∅)))) /\
    (forall l', l' <> 1%positive -> l' <> 2%positive ->
       h' !! l' = parsed_store !! l').
Proof.
  apply (add_each_in_order "alarm_actions" MetricAlarm.add_alarm_action
           [VStr "arn:aws:sns:a"; VStr "arn:aws:sns:b"] 1%positive
           MetricAlarmCls _ 2%positive ListElementCls _ parsed_store).
  - apply list_elem_of_here.
  - reflexivity.
  - reflexivity.
  - reflexivity.
  - repeat (apply Forall_cons; split; [eexists; split; [reflexivity|discriminate]|]).
    apply Forall_nil_2.
  - discriminate.
Defined.

(** ** The fields that MetricAlarm.endElement fills *)

Local Ltac in_list :=
  repeat first [apply list_elem_of_here | apply list_elem_of_further].

(** X8: leaving one of the eleven plain nodes stores the text, whatever it
    is, in the attribute of that node ([AlarmConfigurationUpdatedTimestamp]
    goes to [last_updated] unparsed, [MetricName] to [metric], ...), and
    leaving a node with none of the fifteen known names stores the text in
    an attribute of that very name, unless the name is one that instances
    do not store: [__class__] raises [TypeError] and [__weakref__] raises
    [AttributeError], both leaving the alarm as it was ([__dict__] rebinds
    the attributes and is left out here).  The other cases do not raise,
    and only that one attribute of the alarm changes. *)
Theorem endElement_plain_text E self c attrs value conn (h : heap) :
  h !! self = Some (OInst c attrs) ->
  (forall node field, (node, field) ∈ raw_nodes ->
     MetricAlarm.endElement E self node value conn h =
       (Ok VNone, <[self := OInst c (<[field := value]> attrs)]> h)) /\
  (forall name,
     name ∉ known_nodes -> name ∉ ["__class__"; "__weakref__"; "__dict__"] ->
     MetricAlarm.endElement E self name value conn h =
       (Ok VNone, <[self := OInst c (<[name := value]> attrs)]> h)) /\
  MetricAlarm.endElement E self "__class__" value conn h
    = (Raise TypeError, h) /\
  MetricAlarm.endElement E self "__weakref__" value conn h
    = (Raise AttributeError, h).
Proof.
  intros Hself. split_and!.
  - intros node field Hin. unfold raw_nodes in Hin.
    repeat (apply elem_of_cons in Hin as [[= -> ->]|Hin]);
      [..|by apply elem_of_nil in Hin];
      unfold MetricAlarm.endElement;
      repeat (case_decide; [try discriminate|]); try done;
      by erewrite bind_Ok by (by apply setattr_inst).
  - intros name Hname Hplain. unfold MetricAlarm.endElement.
    repeat (case_decide;
            [exfalso; subst name; apply Hname; vm_compute; in_list|]).
    rewrite (py_setattr_plain _ _ _ Hplain).
    by erewrite bind_Ok by (by apply setattr_inst).
  - unfold MetricAlarm.endElement.
    repeat (case_decide; [discriminate|]). reflexivity.
  - unfold MetricAlarm.endElement.
    repeat (case_decide; [discriminate|]). reflexivity.
Qed.

Lemma endElement_plain_text_witness :
  (forall node field, (node, field) ∈ raw_nodes ->
     MetricAlarm.endElement Example.env 1%positive node (VStr "x") VNone
         parsed_store =
       (Ok VNone,
        <[1%positive := OInst MetricAlarmCls
            (<[field := VStr "x"]>
               (<["alarm_actions" := VRef 2%positive]>
                  (<["name" := VStr "cpu-high"]> ∅)))]> parsed_store)) /\
  (forall name,
     name ∉ known_nodes -> name ∉ ["__class__"; "__weakref__"; "__dict__"] ->
     MetricAlarm.endElement Example.env 1%positive name (VStr "x") VNone
         parsed_store =
       (Ok VNone,
        <[1%positive := OInst MetricAlarmCls
            (<[name := VStr "x"]>
               (<["alarm_actions" := VRef 2%positive]>
                  (<["name" := VStr "cpu-high"]> ∅)))]> parsed_store)) /\
  MetricAlarm.endElement Example.env 1%positive "__class__" (VStr "x") VNone
      parsed_store = (Raise TypeError, parsed_store) /\
  MetricAlarm.endElement Example.env 1%positive "__weakref__" (VStr "x") VNone
      parsed_store = (Raise AttributeError, parsed_store).
Proof.
  apply (endElement_plain_text Example.env 1%positive MetricAlarmCls _
           (VStr "x") VNone parsed_store).
  reflexivity.
Defined.

(** X9: leaving [EvaluationPeriods] or [Period] stores [int(text)] and
    leaving [Threshold] stores [float(text)]; when the conversion raises,
    the exception goes to the caller and the alarm keeps the value it
    had. *)
Theorem endElement_numbers E self c attrs value conn (h : heap) :
  h !! self = Some (OInst c attrs) ->
  (forall node field, (node, field) ∈ int_nodes ->
     MetricAlarm.endElement E self node value conn h =
       match py_int E value with
       | Ok n =>
           (Ok VNone, <[self := OInst c (<[field := VInt n]> attrs)]> h)
       | Raise e => (Raise e, h)
       end) /\
  MetricAlarm.endElement E self "Threshold" value conn h =
    match py_float E value with
    | Ok x =>
        (Ok VNone, <[self := OInst c (<["threshold" := VFloat x]> attrs)]> h)
    | Raise e => (Raise e, h)
    end.
Proof.
  intros Hself. split.
  - intros node field Hin. unfold int_nodes in Hin.
    repeat (apply elem_of_cons in Hin as [[= -> ->]|Hin]);
      [..|by apply elem_of_nil in Hin];
      unfold MetricAlarm.endElement;
      repeat (case_decide; [try discriminate|]); try done;
      unfold mbind, M_bind, bind, lift, mret, M_ret, ret, setattr;
      destruct (py_int E value); by rewrite ?Hself.
  - unfold MetricAlarm.endElement.
    repeat (case_decide; [try discriminate|]); try done.
    unfold mbind, M_bind, bind, lift, mret, M_ret, ret, setattr.
    destruct (py_float E value); by rewrite ?Hself.
Qed.

Lemma endElement_numbers_witness :
  (forall node field, (node, field) ∈ int_nodes ->
     MetricAlarm.endElement Example.env 1%positive node (VStr "300") VNone
         parsed_store =
       match py_int Example.env (VStr "300") with
       | Ok n =>
           (Ok VNone,
            <[1%positive := OInst MetricAlarmCls
                (<[field := VInt n]>
                   (<["alarm_actions" := VRef 2%positive]>
                      (<["name" := VStr "cpu-high"]> ∅)))]> parsed_store)
       | Raise e => (Raise e, parsed_store)
       end) /\
  MetricAlarm.endElement Example.env 1%positive "Threshold" (VStr "300") VNone
      parsed_store =
    match py_float Example.env (VStr "300") with
    | Ok x =>
        (Ok VNone,
         <[1%positive := OInst MetricAlarmCls
             (<["threshold" := VFloat x]>
                (<["alarm_actions" := VRef 2%positive]>
                   (<["name" := VStr "cpu-high"]> ∅)))]> parsed_store)
    | Raise e => (Raise e, parsed_store)
    end.
Proof.
  apply (endElement_numbers Example.env 1%positive MetricAlarmCls _
           (VStr "300") VNone parsed_store).
  reflexivity.
Defined.
